(** * QAmcp: a browser-automation tool server, embedded and verified

    The development follows the server script (version 0.4.0): three
    module-level variables ([browser], [page], [networkLogs]), the session
    routine [initBrowser], the response recorder bound to every page it opens,
    and the registered tools.  The browser driver is an interface the script
    calls; it is kept abstract and every theorem holds for all drivers. *)

From Stdlib Require Import List String Ascii Bool Arith ZArith Lia.
Import ListNotations.
Local Open Scope list_scope.
Local Open Scope string_scope.

(** ** JavaScript string primitives used by the script *)

Module Js.

(** [s.startsWith(k)]. *)
Definition startsWith (s k : string) : bool := String.prefix k s.

(** [s.includes(k)]: [k] occurs somewhere in [s], compared unit by unit. *)
Fixpoint includes (s k : string) : bool :=
  String.prefix k s ||
  match s with
  | EmptyString => false
  | String _ s' => includes s' k
  end.

(** Truthiness of a string value: only the empty string is falsy. *)
Definition truthy (s : string) : bool :=
  match s with
  | EmptyString => false
  | String _ _ => true
  end.

(** Truthiness of a number such as [found.length]: zero is falsy. *)
Definition truthy_num (n : nat) : bool := negb (Nat.eqb n 0).

(** A value that is a string, or [null]/[undefined] ([None]). *)
Definition truthy_opt (v : option string) : bool :=
  match v with
  | Some s => truthy s
  | None => false
  end.

(** [a || b] on such values: [a] when it is truthy, else [b]. *)
Definition or_else (a b : option string) : option string :=
  if truthy_opt a then a else b.

(** Error objects: what [catch (err)] binds; [err.message] is read. *)
Record Error : Type := mkError { message : string }.

End Js.

(** ** JSON values and [JSON.stringify(v, null, 2)] *)

Module Json.

(** A JSON value.  Object members are kept in property-enumeration order.
    Numbers are carried as integers: the only numbers the script itself puts
    in an entry are response status codes. *)
#[local] Set Warnings "-register-all".
Inductive value : Type :=
| JNull
| JBool (b : bool)
| JNumber (z : Z)
| JString (s : string)
| JArray (items : list value)
| JObject (members : list (string * value)).

Definition chr (n : nat) : string := String (ascii_of_nat n) EmptyString.
Definition newline : string := chr 10.
Definition dquote : string := chr 34.
Definition backslash : string := chr 92.

Definition hex_digit (n : nat) : string :=
  match n with
  | 10 => "a" | 11 => "b" | 12 => "c" | 13 => "d" | 14 => "e" | 15 => "f"
  | _ => chr (48 + n)%nat
  end.

(** One code unit inside a quoted JSON string. *)
Definition escape_char (c : ascii) : string :=
  let n := nat_of_ascii c in
  if (n =? 34)%nat then backslash ++ dquote
  else if (n =? 92)%nat then backslash ++ backslash
  else if (n =? 8)%nat then backslash ++ "b"
  else if (n =? 12)%nat then backslash ++ "f"
  else if (n =? 10)%nat then backslash ++ "n"
  else if (n =? 13)%nat then backslash ++ "r"
  else if (n =? 9)%nat then backslash ++ "t"
  else if (n <? 32)%nat then backslash ++ "u00" ++ hex_digit (n / 16)%nat ++ hex_digit (n mod 16)%nat
  else String c EmptyString.

Fixpoint escape (s : string) : string :=
  match s with
  | EmptyString => EmptyString
  | String c s' => escape_char c ++ escape s'
  end.

Definition quote (s : string) : string := dquote ++ escape s ++ dquote.

Fixpoint digits_of (fuel : nat) (n : N) (acc : string) : string :=
  match fuel with
  | O => acc
  | S fuel' =>
      let acc' := String (ascii_of_N (48 + N.modulo n 10)%N) acc in
      if N.ltb n 10 then acc' else digits_of fuel' (N.div n 10) acc'
  end.

Definition number_text (z : Z) : string :=
  let mag := digits_of (S (N.to_nat (N.log2 (Z.abs_N z)))) (Z.abs_N z) EmptyString in
  if Z.ltb z 0 then "-" ++ mag else mag.

Fixpoint join (sep : string) (parts : list string) : string :=
  match parts with
  | [] => EmptyString
  | [x] => x
  | x :: rest => x ++ sep ++ join sep rest
  end.

(** The two-space gap of the third argument [2]. *)
Definition gap : string := "  ".

(** Serialization at a given current indentation. *)
Fixpoint stringify_at (indent : string) (v : value) : string :=
  match v with
  | JNull => "null"
  | JBool true => "true"
  | JBool false => "false"
  | JNumber z => number_text z
  | JString s => quote s
  | JArray [] => "[]"
  | JArray items =>
      let inner := indent ++ gap in
      "[" ++ newline ++ inner
        ++ join ("," ++ newline ++ inner) (map (stringify_at inner) items)
        ++ newline ++ indent ++ "]"
  | JObject [] => "{}"
  | JObject members =>
      let inner := indent ++ gap in
      "{" ++ newline ++ inner
        ++ join ("," ++ newline ++ inner)
             (map (fun kv => quote (fst kv) ++ ": " ++ stringify_at inner (snd kv)) members)
        ++ newline ++ indent ++ "}"
  end.

(** [JSON.stringify(v, null, 2)]. *)
Definition stringify (v : value) : string := stringify_at EmptyString v.

(** A string-or-null field. *)
Definition of_opt (v : option string) : value :=
  match v with
  | Some s => JString s
  | None => JNull
  end.

End Json.

(** ** The page's DOM as the in-page scripts observe it *)

Module Dom.

(** ASCII lower-casing; tag names and the [type] keyword are ASCII. *)
Definition lower_char (c : ascii) : ascii :=
  let n := nat_of_ascii c in
  if ((65 <=? n) && (n <=? 90))%nat then ascii_of_nat (n + 32) else c.

Fixpoint toLowerCase (s : string) : string :=
  match s with
  | EmptyString => EmptyString
  | String c s' => String (lower_char c) (toLowerCase s')
  end.

(** What the scripts read from an element.  [innerText], [value] and [type]
    are properties: a string, or [None] when the property is not a string
    (for instance [value] on an anchor is undefined).  [getAttribute] gives a
    string or null.  [node] tells elements apart. *)
Record Element : Type := mkElement {
  node : nat;
  tagName : string;
  getAttribute_type : option string;
  getAttribute_placeholder : option string;
  innerText : option string;
  value : option string;
  type : option string
}.

(** The compound selectors that occur in the script. *)
Inductive compound : Type :=
| Tag (name : string)
| TagType (name : string) (v : string).

Definition matches1 (c : compound) (e : Element) : bool :=
  match c with
  | Tag name => toLowerCase (tagName e) =? name
  | TagType name v =>
      (toLowerCase (tagName e) =? name) &&
      match getAttribute_type e with
      | Some t => toLowerCase t =? v
      | None => false
      end
  end.

(** A selector list [c1, c2, ...] selects what any of its members selects. *)
Definition matches (sel : list compound) (e : Element) : bool :=
  existsb (fun c => matches1 c e) sel.

(** The document: its elements in document order. *)
Definition Document : Type := list Element.

(** [document.querySelectorAll(sel)], in document order. *)
Definition querySelectorAll (doc : Document) (sel : list compound) : list Element :=
  filter (matches sel) doc.

(** ["a, button, input, textarea"] *)
Definition sel_interactive : list compound :=
  [Tag "a"; Tag "button"; Tag "input"; Tag "textarea"].

(** ["a, button, input[type=submit]"] *)
Definition sel_clickable : list compound :=
  [Tag "a"; Tag "button"; TagType "input" "submit"].

End Dom.

(** ** The browser driver: the calls the script makes on it *)

Definition BrowserH : Type := nat.
Definition PageH : Type := nat.

Record LaunchOptions : Type := mkLaunchOptions {
  headless : bool;
  args : list string
}.

Inductive WaitUntil : Type := load | domcontentloaded | networkidle0 | networkidle2.

Record GoToOptions : Type := mkGoToOptions {
  waitUntil : WaitUntil;
  timeout : Z
}.

(** A driver over some world.  A call that can reject answers [Some err]
    when it does; every call may change the world.  The handles of new
    browsers and pages are not chosen by the driver: a launch or a page
    creation that resolves yields an object that did not exist before. *)
Record Driver (World : Type) : Type := mkDriver {
  isConnected : BrowserH -> World -> bool;
  close : BrowserH -> World -> option Js.Error * World;
  launch : LaunchOptions -> World -> option Js.Error * World;
  isClosed : PageH -> World -> bool;
  newPage : BrowserH -> World -> option Js.Error * World;
  goto : PageH -> string -> GoToOptions -> World -> option Js.Error * World;
  document : PageH -> World -> Js.Error + Dom.Document;
  click : PageH -> Dom.Element -> World -> World
}.

Arguments isConnected {World}.
Arguments close {World}.
Arguments launch {World}.
Arguments isClosed {World}.
Arguments newPage {World}.
Arguments goto {World}.
Arguments document {World}.
Arguments click {World}.

(** A response as the recorder reads it. *)
Module Res.
Record t : Type := mk {
  url : string;
  status : Z;
  json : Js.Error + Json.value;
  text : Js.Error + string
}.
End Res.

(** An entry of [networkLogs]. *)
Record LogEntry : Type := mkLogEntry {
  url : string;
  status : Z;
  body : Json.value;
  time : string
}.

Definition entry_json (e : LogEntry) : Json.value :=
  Json.JObject [("url", Json.JString (url e)); ("status", Json.JNumber (status e));
                ("body", body e); ("time", Json.JString (time e))].

Definition logs_json (logs : list LogEntry) : Json.value :=
  Json.JArray (map entry_json logs).

(** What a tool returns: [{ content: [{ type: "text", text }] }]. *)
Module Content.
Record block : Type := mk { type : string; text : string }.
End Content.

Record ToolResult : Type := mkToolResult { content : list Content.block }.

Definition text_result (t : string) : ToolResult :=
  {| content := [ {| Content.type := "text"; Content.text := t |} ] |}.

(** The descriptor [list_elements] builds for one element. *)
Module Descriptor.
Record t : Type := mk {
  tag : string;
  type : option string;
  placeholder : option string;
  text : option string
}.

Definition to_json (d : t) : Json.value :=
  Json.JObject [("tag", Json.JString (tag d)); ("type", Json.of_opt (type d));
                ("placeholder", Json.of_opt (placeholder d)); ("text", Json.of_opt (text d))].
End Descriptor.

(** ** The server *)

Section Server.

Context {World : Type} (drv : Driver World).

(** The module-level variables, and around them what the process holds:
    the pages that carry the response listener, what was written with
    [console.error], the object identities handed out so far, the world. *)
Record State : Type := mkState {
  browser : option BrowserH;
  page : option PageH;
  networkLogs : list LogEntry;
  listeners : list PageH;
  console : list Js.Error;
  next_handle : nat;
  world : World
}.

(** Computations that read and write the state and may throw.  A throw keeps
    the writes made before it. *)
Definition M (A : Type) : Type := State -> (Js.Error + A) * State.

Definition ret {A} (a : A) : M A := fun s => (inr a, s).
Definition throw {A} (e : Js.Error) : M A := fun s => (inl e, s).

Definition bind {A B} (m : M A) (k : A -> M B) : M B :=
  fun s => match m s with
           | (inr a, s') => k a s'
           | (inl e, s') => (inl e, s')
           end.

Definition try_catch {A} (m : M A) (handler : Js.Error -> M A) : M A :=
  fun s => match m s with
           | (inr a, s') => (inr a, s')
           | (inl e, s') => handler e s'
           end.

Notation "x <- m ;; k" := (bind m (fun x => k))
  (at level 61, m at next level, right associativity).
Notation "m ;; k" := (bind m (fun _ => k))
  (at level 61, right associativity).

Definition gets {A} (f : State -> A) : M A := fun s => (inr (f s), s).
Definition modify (f : State -> State) : M unit := fun s => (inr tt, f s).

Definition set_browser (b : option BrowserH) : M unit :=
  modify (fun s => mkState b (page s) (networkLogs s) (listeners s) (console s)
                           (next_handle s) (world s)).
Definition set_page (p : option PageH) : M unit :=
  modify (fun s => mkState (browser s) p (networkLogs s) (listeners s) (console s)
                           (next_handle s) (world s)).
(** The same process state in another world. *)
Definition with_world (s : State) (w : World) : State :=
  mkState (browser s) (page s) (networkLogs s) (listeners s) (console s) (next_handle s) w.

Definition set_world (w : World) : M unit := modify (fun s => with_world s w).
Definition push_log (e : LogEntry) : M unit :=
  modify (fun s => mkState (browser s) (page s) (networkLogs s ++ [e])%list (listeners s)
                           (console s) (next_handle s) (world s)).
Definition add_listener (p : PageH) : M unit :=
  modify (fun s => mkState (browser s) (page s) (networkLogs s) (p :: listeners s)
                           (console s) (next_handle s) (world s)).
Definition console_error (e : Js.Error) : M unit :=
  modify (fun s => mkState (browser s) (page s) (networkLogs s) (listeners s)
                           (console s ++ [e])%list (next_handle s) (world s)).

(** A fresh object identity. *)
Definition fresh : M nat :=
  fun s => (inr (next_handle s),
            mkState (browser s) (page s) (networkLogs s) (listeners s) (console s)
                    (S (next_handle s)) (world s)).

(** An awaited driver call: the world moves on, a rejection is thrown. *)
Definition await (call : World -> option Js.Error * World) : M unit :=
  fun s => let (r, w) := call (world s) in
           match r with
           | Some e => (inl e, with_world s w)
           | None => (inr tt, with_world s w)
           end.

Definition ask {A} (q : World -> A) : M A := gets (fun s => q (world s)).

(** A promise or a result settled already: its value, or its error thrown. *)
Definition settle {A} (r : Js.Error + A) : M A :=
  match r with
  | inr a => ret a
  | inl e => throw e
  end.

(** Calling a method on a variable that holds null throws a TypeError. *)
Definition TypeError (method : string) : Js.Error :=
  Js.mkError ("Cannot read properties of null (reading '" ++ method ++ "')").

Definition deref {A} (method : string) (v : option A) : M A :=
  match v with
  | Some a => ret a
  | None => throw (TypeError method)
  end.

Definition launch_options : LaunchOptions :=
  {| headless := false; args := ["--no-sandbox"; "--disable-setuid-sandbox"] |}.

(** [!browser || !browser.isConnected()] *)
Definition browser_dead (b : option BrowserH) (w : World) : bool :=
  match b with
  | None => true
  | Some h => negb (isConnected drv h w)
  end.

(** [!page || page.isClosed()] *)
Definition page_dead (p : option PageH) (w : World) : bool :=
  match p with
  | None => true
  | Some h => isClosed drv h w
  end.

(** The body of the [try] block of [initBrowser]. *)
Definition initBrowser_try : M (option PageH) :=
  b <- gets browser ;;
  dead <- ask (browser_dead b) ;;
  (if dead then
     (match b with
      | Some h => await (close drv h)
      | None => ret tt
      end) ;;
     await (launch drv launch_options) ;;
     h <- fresh ;;
     set_browser (Some h)
   else ret tt) ;;
  p <- gets page ;;
  closed <- ask (page_dead p) ;;
  (if closed then
     b' <- gets browser ;;
     h <- deref "newPage" b' ;;
     await (newPage drv h) ;;
     np <- fresh ;;
     set_page (Some np) ;;
     add_listener np
   else ret tt) ;;
  gets page.

Definition initBrowser : M (option PageH) :=
  try_catch initBrowser_try
    (fun err =>
       console_error err ;;
       set_browser None ;;
       set_page None ;;
       throw err).

(** The listener bound with [page.on("response", ...)]; [now] is the
    reading of the clock when the entry is built. *)
Definition on_response (res : Res.t) (now : string) : M unit :=
  let url := Res.url res in
  let status := Res.status res in
  if negb (Js.startsWith url "http") then ret tt
  else
    body <- try_catch (settle (Res.json res))
              (fun _ => try_catch (t <- settle (Res.text res) ;; ret (Json.JString t))
                          (fun _ => ret Json.JNull)) ;;
    push_log {| url := url; status := status; body := body; time := now |}.

(** A response event on page [p] runs every listener bound to [p]. *)
Fixpoint emit_response (ls : list PageH) (p : PageH) (res : Res.t) (now : string) : M unit :=
  match ls with
  | [] => ret tt
  | l :: ls' =>
      (if Nat.eqb l p then on_response res now else ret tt) ;;
      emit_response ls' p res now
  end.

(** *** Tools *)

Definition goto_options : GoToOptions :=
  {| waitUntil := networkidle2; timeout := 30000 |}.

Definition visit_page (url : string) : M ToolResult :=
  p <- initBrowser ;;
  try_catch
    (h <- deref "goto" p ;;
     await (goto drv h url goto_options) ;;
     ret (text_result ("✅ Visited " ++ url)))
    (fun err => ret (text_result ("❌ Visit failed: " ++ Js.message err))).

(** The in-page function of [list_elements], per element. *)
Definition describe (el : Dom.Element) : Descriptor.t :=
  {| Descriptor.tag := Dom.toLowerCase (Dom.tagName el);
     Descriptor.type := Js.or_else (Dom.getAttribute_type el) None;
     Descriptor.placeholder := Js.or_else (Dom.getAttribute_placeholder el) None;
     Descriptor.text := Js.or_else (Js.or_else (Dom.innerText el) (Dom.value el)) None |}.

Definition list_elements_script (doc : Dom.Document) : list Descriptor.t :=
  map describe (Dom.querySelectorAll doc Dom.sel_interactive).

Definition list_elements : M ToolResult :=
  p <- initBrowser ;;
  h <- deref "evaluate" p ;;
  d <- ask (document drv h) ;;
  doc <- settle d ;;
  let elements := list_elements_script doc in
  ret (text_result (Json.stringify (Json.JArray (map Descriptor.to_json elements)))).

(** The predicate given to [els.find] in [click_element]. *)
Definition click_pred (k : string) (e : Dom.Element) : bool :=
  match Dom.innerText e with
  | Some t => Js.truthy t && Js.includes t k
  | None => false
  end
  ||
  match Dom.type e with
  | Some t => Js.truthy t && (t =? k)
  | None => false
  end.

(** The element the in-page function of [click_element] clicks, if any. *)
Definition click_target (k : string) (doc : Dom.Document) : option Dom.Element :=
  find (click_pred k) (Dom.querySelectorAll doc Dom.sel_clickable).

Definition click_element (keyword : string) : M ToolResult :=
  p <- initBrowser ;;
  h <- deref "evaluate" p ;;
  d <- ask (document drv h) ;;
  doc <- settle d ;;
  clicked <- match click_target keyword doc with
             | Some el =>
                 w <- gets world ;;
                 set_world (click drv h el w) ;;
                 ret true
             | None => ret false
             end ;;
  ret (text_result (if clicked : bool then "✅ Clicked " ++ keyword
                    else "❌ Not Found: " ++ keyword)).

Definition get_network_logs : M ToolResult :=
  logs <- gets networkLogs ;;
  ret (text_result (Json.stringify (logs_json logs))).

Definition check_network_request (keyword : string) : M ToolResult :=
  logs <- gets networkLogs ;;
  let found := filter (fun log => Js.includes (url log) keyword) logs in
  if Js.truthy_num (List.length found)
  then ret (text_result (Json.stringify (logs_json logs)))
  else ret (text_result ("No request found for " ++ keyword)).

End Server.

Arguments State World : clear implicits.
Arguments M World A : clear implicits.

(** ** Vocabulary of the properties *)

(** [k] occurs in [s]: the words "contains as a substring". *)
Definition substring_of (k s : string) : Prop :=
  exists a b : string, s = a ++ k ++ b.

(** A URL whose scheme is http or https, the way the specification words
    the recorder's filter. *)
Definition http_or_https_url (u : string) : bool :=
  Js.startsWith u "http:" || Js.startsWith u "https:".

(** The schemes on which a browser loads or names a resource, each with the
    colon that ends it. *)
Definition browser_schemes : list string :=
  ["http:"; "https:"; "data:"; "blob:"; "file:"; "about:"; "filesystem:"; "ftp:";
   "ws:"; "wss:"; "javascript:"; "view-source:"; "devtools:";
   "chrome:"; "chrome-extension:"; "chrome-error:"; "chrome-untrusted:";
   "chrome-search:"; "chrome-native:"].

(** A URL on one of those schemes: what [res.url()] can be. *)
Definition browser_url (u : string) : bool :=
  existsb (fun scheme => Js.startsWith u scheme) browser_schemes.

(** The match the specification words for [click_element]: the text contains
    the keyword, or the type attribute equals it. *)
Definition text_contains_or_type_equals (k : string) (e : Dom.Element) : bool :=
  match Dom.innerText e with
  | Some t => Js.includes t k
  | None => false
  end
  ||
  match Dom.getAttribute_type e with
  | Some t => t =? k
  | None => false
  end.

(** The [type] property of an element merely reflects its attribute: it is
    the attribute's value, or the empty string when there is no attribute.
    (A button without the attribute does not: its property is submit.) *)
Definition type_reflects_attribute (e : Dom.Element) : Prop :=
  Dom.type e = Some match Dom.getAttribute_type e with
                    | Some t => t
                    | None => EmptyString
                    end.

(** A string-valued field that is absent or empty. *)
Definition blank (v : option string) : Prop := v = None \/ v = Some EmptyString.

(** Anchors, buttons and submit inputs. *)
Definition clickable_kind (e : Dom.Element) : Prop :=
  Dom.toLowerCase (Dom.tagName e) = "a" \/
  Dom.toLowerCase (Dom.tagName e) = "button" \/
  (Dom.toLowerCase (Dom.tagName e) = "input" /\
   exists t, Dom.getAttribute_type e = Some t /\ Dom.toLowerCase t = "submit").

Section Vocabulary.

Context {World : Type} (drv : Driver World).

(** The close step of [initBrowser]: performed only on a handle that is held. *)
Definition close_stale (b : option BrowserH) (w : World) : option Js.Error * World :=
  match b with
  | Some h => close drv h w
  | None => (None, w)
  end.

(** Every handle the variables hold was handed out before. *)
Definition handles_known (s : State World) : Prop :=
  (forall b, browser s = Some b -> b < next_handle s) /\
  (forall p, page s = Some p -> p < next_handle s).

(** What can follow a state: calls of [initBrowser], whatever they answer
    (every tool that touches the page starts with one), response events, and
    changes of the world in between (navigations, clicks, crashes). *)
Inductive later (s : State World) : State World -> Prop :=
| later_now : later s s
| later_acquire s1 r s2 :
    later s s1 -> initBrowser drv s1 = (r, s2) -> later s s2
| later_response s1 res now r s2 :
    later s s1 -> on_response res now s1 = (r, s2) -> later s s2
| later_world s1 w :
    later s s1 -> later s (with_world s1 w).

End Vocabulary.

(** ** A scripted driver, to run the server on concrete worlds *)

Module Scripted.

Inductive Call : Type :=
| CallClose (b : BrowserH)
| CallLaunch (o : LaunchOptions)
| CallNewPage (b : BrowserH)
| CallGoto (p : PageH) (url : string) (o : GoToOptions)
| CallClick (p : PageH) (node : nat).

(** The calls made so far (oldest first), which browsers report
    disconnected and which pages closed, the rejection each kind of call is
    scripted to give, and the document pages show. *)
Record World : Type := mk {
  trace : list Call;
  disconnected : list BrowserH;
  closed : list PageH;
  close_error : option Js.Error;
  launch_error : option Js.Error;
  newPage_error : option Js.Error;
  goto_error : option Js.Error;
  dom : Js.Error + Dom.Document
}.

Definition record (c : Call) (w : World) : World :=
  mk (trace w ++ [c])%list (disconnected w) (closed w) (close_error w) (launch_error w)
     (newPage_error w) (goto_error w) (dom w).

Definition driver : Driver World :=
  {| isConnected := fun b w => negb (existsb (Nat.eqb b) (disconnected w));
     close := fun b w => (close_error w, record (CallClose b) w);
     launch := fun o w => (launch_error w, record (CallLaunch o) w);
     isClosed := fun p w => existsb (Nat.eqb p) (closed w);
     newPage := fun b w => (newPage_error w, record (CallNewPage b) w);
     goto := fun p u o w => (goto_error w, record (CallGoto p u o) w);
     document := fun _ w => dom w;
     click := fun p el w => record (CallClick p (Dom.node el)) w |}.

Definition boom : Js.Error := Js.mkError "boom".

(** A world where nothing fails and nothing is dead, showing [doc]. *)
Definition calm (doc : Dom.Document) : World :=
  mk [] [] [] None None None None (inr doc).

(** The process before its first tool call. *)
Definition start (w : World) : State World := mkState None None [] [] [] 0 w.

(** A session that was opened earlier: browser 0, page 1. *)
Definition opened (logs : list LogEntry) (w : World) : State World :=
  mkState (Some 0) (Some 1) logs [1] [] 2 w.

Definition anchor (n : nat) (txt : string) : Dom.Element :=
  Dom.mkElement n "A" None None (Some txt) None (Some "").

Definition button (n : nat) (txt : string) : Dom.Element :=
  Dom.mkElement n "BUTTON" None None (Some txt) (Some "") (Some "submit").

Definition input (n : nat) (ty : option string) (ph : option string) (v : string) : Dom.Element :=
  Dom.mkElement n "INPUT" ty ph (Some "") (Some v)
    (Some match ty with Some t => t | None => "text" end).

Definition entry (u : string) : LogEntry :=
  mkLogEntry u 200 Json.JNull "2024-01-01T00:00:00.000Z".

(** Browser 0 reports disconnected and its close rejects. *)
Definition close_rejects : World :=
  mk [] [0] [] (Some boom) None None None (inr []).

(** No browser can be launched. *)
Definition launch_rejects : World :=
  mk [] [] [] None (Some boom) None None (inr []).

(** Browser 0 reports disconnected; its page 1 does not report closed. *)
Definition browser_gone : World :=
  mk [] [0] [] None None None None (inr []).

(** Browser 0 reports disconnected and its page 1 reports closed. *)
Definition session_gone : World :=
  mk [] [0] [1] None None None None (inr []).

(** Navigations fail. *)
Definition goto_rejects : World :=
  mk [] [] [] None None None (Some (Js.mkError "net::ERR_NAME_NOT_RESOLVED")) (inr []).

Definition two_entries : list LogEntry :=
  [entry "https://api.test/foo"; entry "https://cdn.test/app.js"].

(** A page with a submit input and two links. *)
Definition form_page : Dom.Document :=
  [input 0 (Some "submit") None "Go"; anchor 1 "Sign in"; anchor 2 "Sign in again"].

(** An input whose attributes are present but empty. *)
Definition blank_input : Dom.Element :=
  input 0 (Some "") (Some "") "hello".

(** A response whose body is not JSON. *)
Definition html_response : Res.t :=
  Res.mk "https://site.test/" 200 (inl (Js.mkError "Unexpected token <")) (inr "<html>").

(** A page whose first button has no type attribute, before a submit
    input. *)
Definition cancel_page : Dom.Document :=
  [button 0 "Cancel"; input 1 (Some "submit") None "Go"].

(** A response that carries an embedded image. *)
Definition embedded_response : Res.t :=
  Res.mk "data:image/png;base64,AAAA" 200 (inl boom) (inr "x").

End Scripted.

(** ** The rest of the page's surface: markup, form fields, keystrokes *)

Module Page.

(** A form field as the in-page function of [fill_form] reads it: the
    element, its [placeholder] property (a string, or [None] when it is not
    one), and the [innerText] of its first label ([None] when [labels] is
    null or empty). *)
Record Field : Type := mkField {
  element : Dom.Element;
  placeholder : option string;
  label0 : option string
}.

Record ClickOptions : Type := mkClickOptions { clickCount : nat }.

(** The calls on a page and on an element handle that the other tools make.
    [goto_plain] is [goto] without an options argument. *)
Record calls (World : Type) : Type := mk {
  content : PageH -> World -> Js.Error + string;
  fields : PageH -> World -> Js.Error + list Field;
  handle_click : PageH -> Field -> ClickOptions -> World -> option Js.Error * World;
  handle_press : PageH -> Field -> string -> World -> option Js.Error * World;
  handle_type : PageH -> Field -> string -> World -> option Js.Error * World;
  goto_plain : PageH -> string -> World -> option Js.Error * World
}.

Arguments content {World}.
Arguments fields {World}.
Arguments handle_click {World}.
Arguments handle_press {World}.
Arguments handle_type {World}.
Arguments goto_plain {World}.

(** ["input, textarea"] *)
Definition sel_fields : list Dom.compound := [Dom.Tag "input"; Dom.Tag "textarea"].

(** [document.querySelectorAll("input, textarea")] over the fields. *)
Definition select_fields (fs : list Field) : list Field :=
  filter (fun f => Dom.matches sel_fields (element f)) fs.

End Page.

Section Forms.

Context {World : Type} (drv : Driver World) (pg : Page.calls World).

Notation "x <- m ;; k" := (bind m (fun x => k))
  (at level 61, m at next level, right associativity).
Notation "m ;; k" := (bind m (fun _ => k))
  (at level 61, right associativity).

(** The predicate given to [find] in [fill_form]:
    [(e.placeholder && e.placeholder.includes(k)) ||
     (e.labels?.[0]?.innerText.includes(k))]. *)
Definition fill_pred (k : string) (f : Page.Field) : bool :=
  match Page.placeholder f with
  | Some t => Js.truthy t && Js.includes t k
  | None => false
  end
  ||
  match Page.label0 f with
  | Some t => Js.includes t k
  | None => false
  end.

(** The field the handle of [fill_form] points to, if any. *)
Definition fill_target (k : string) (fs : list Page.Field) : option Page.Field :=
  find (fill_pred k) (Page.select_fields fs).

Definition fill_form (keyword value : string) : M World ToolResult :=
  p <- initBrowser drv ;;
  h <- deref "evaluateHandle" p ;;
  d <- ask (Page.fields pg h) ;;
  fs <- settle d ;;
  match fill_target keyword fs with
  | None => ret (text_result ("❌ Input not found: " ++ keyword))
  | Some inputHandle =>
      await (Page.handle_click pg h inputHandle (Page.mkClickOptions 3)) ;;
      await (Page.handle_press pg h inputHandle "Backspace") ;;
      await (Page.handle_type pg h inputHandle value) ;;
      ret (text_result ("✍️ Typed into " ++ keyword))
  end.

Definition assert_text (text : string) : M World ToolResult :=
  p <- initBrowser drv ;;
  h <- deref "content" p ;;
  d <- ask (Page.content pg h) ;;
  body <- settle d ;;
  ret (text_result (if Js.includes body text then "Found: " ++ text
                    else " Not Found: " ++ text)).

(** Response events arriving one after the other on page [p], each run of
    the listeners finishing before the next begins. *)
Fixpoint emit_responses (p : PageH) (events : list (Res.t * string)) : M World unit :=
  match events with
  | [] => ret tt
  | (res, now) :: rest =>
      ls <- gets listeners ;;
      emit_response ls p res now ;;
      emit_responses p rest
  end.

End Forms.

(** The entry the recorder builds for a response it retains. *)
Definition recorded_entry (ev : Res.t * string) : LogEntry :=
  {| url := Res.url (fst ev);
     status := Res.status (fst ev);
     body := match Res.json (fst ev) with
             | inr v => v
             | inl _ => match Res.text (fst ev) with
                        | inr t => Json.JString t
                        | inl _ => Json.JNull
                        end
             end;
     time := snd ev |}.

(** The responses the recorder retains. *)
Definition retained (ev : Res.t * string) : bool :=
  Js.startsWith (Res.url (fst ev)) "http".

(** The pages that carry the recorder are handles handed out before, each
    carries it once, and the held page is one of them. *)
Definition recorder_bound {World : Type} (s : State World) : Prop :=
  NoDup (listeners s) /\
  (forall p, In p (listeners s) -> p < next_handle s) /\
  (forall p, page s = Some p -> In p (listeners s)).

(** ** The first version of the server (0.1.0) *)

Module V010.

Section Legacy.

Context {World : Type} (drv : Driver World) (pg : Page.calls World).

Notation "x <- m ;; k" := (bind m (fun x => k))
  (at level 61, m at next level, right associativity).
Notation "m ;; k" := (bind m (fun _ => k))
  (at level 61, right associativity).

(** [{ headless: true }]: no extra arguments. *)
Definition launch_options : LaunchOptions := {| headless := true; args := [] |}.

(** Here the variables start undefined, not null. *)
Definition TypeError (method : string) : Js.Error :=
  Js.mkError ("Cannot read properties of undefined (reading '" ++ method ++ "')").

Definition deref {A} (method : string) (v : option A) : M World A :=
  match v with
  | Some a => ret a
  | None => throw (TypeError method)
  end.

Definition initBrowser : M World (option PageH) :=
  b <- gets browser ;;
  (match b with
   | None =>
       await (launch drv launch_options) ;;
       h <- fresh ;;
       set_browser (Some h) ;;
       await (newPage drv h) ;;
       np <- fresh ;;
       set_page (Some np)
   | Some _ => ret tt
   end) ;;
  gets page.

Definition visit_page (url : string) : M World ToolResult :=
  p <- initBrowser ;;
  h <- deref "goto" p ;;
  await (Page.goto_plain pg h url) ;;
  ret (text_result ("✅ Visited " ++ url)).

Definition assert_text (text : string) : M World ToolResult :=
  p <- initBrowser ;;
  h <- deref "content" p ;;
  d <- ask (Page.content pg h) ;;
  body <- settle d ;;
  let found := Js.includes body text in
  ret (text_result (if found then "✅ Found: " ++ text else "❌ Not Found: " ++ text)).

End Legacy.

End V010.

(** ** A scripted page, on top of the scripted driver *)

Module Desk.

Inductive Key : Type :=
| KeyClick (node : nat) (count : nat)
| KeyPress (node : nat) (key : string)
| KeyType (node : nat) (text : string)
| KeyGoto (p : PageH) (url : string).

(** The scripted browser below, the input actions made so far (oldest
    first), the markup and the form fields pages show, and the rejection
    each kind of input action is scripted to give. *)
Record World : Type := mk {
  base : Scripted.World;
  keys : list Key;
  html : Js.Error + string;
  form : Js.Error + list Page.Field;
  click_error : option Js.Error;
  press_error : option Js.Error;
  type_error : option Js.Error
}.

Definition with_base (w : World) (b : Scripted.World) : World :=
  mk b (keys w) (html w) (form w) (click_error w) (press_error w) (type_error w).

Definition lift (call : Scripted.World -> option Js.Error * Scripted.World)
           (w : World) : option Js.Error * World :=
  let (r, b) := call (base w) in (r, with_base w b).

Definition driver : Driver World :=
  {| isConnected := fun b w => isConnected Scripted.driver b (base w);
     close := fun b => lift (close Scripted.driver b);
     launch := fun o => lift (launch Scripted.driver o);
     isClosed := fun p w => isClosed Scripted.driver p (base w);
     newPage := fun b => lift (newPage Scripted.driver b);
     goto := fun p u o => lift (goto Scripted.driver p u o);
     document := fun p w => document Scripted.driver p (base w);
     click := fun p el w => with_base w (click Scripted.driver p el (base w)) |}.

Definition press (k : Key) (w : World) : World :=
  mk (base w) (keys w ++ [k])%list (html w) (form w) (click_error w) (press_error w)
     (type_error w).

Definition node_of (f : Page.Field) : nat := Dom.node (Page.element f).

Definition calls : Page.calls World :=
  {| Page.content := fun _ w => html w;
     Page.fields := fun _ w => form w;
     Page.handle_click := fun _ f o w =>
       (click_error w, press (KeyClick (node_of f) (Page.clickCount o)) w);
     Page.handle_press := fun _ f k w => (press_error w, press (KeyPress (node_of f) k) w);
     Page.handle_type := fun _ f t w => (type_error w, press (KeyType (node_of f) t) w);
     Page.goto_plain := fun p u w => (Scripted.goto_error (base w), press (KeyGoto p u) w) |}.

(** A field carried by an input element. *)
Definition field (n : nat) (ph : string) (label : option string) : Page.Field :=
  Page.mkField (Scripted.input n (Some "text") (Some ph) "") (Some ph) label.

(** Two inputs whose placeholders both contain Email, then one found by
    its label only. *)
Definition signup : list Page.Field :=
  [field 0 "Email" None; field 1 "Email2" None; field 2 "" (Some "Password")].

(** A quiet world over the scripted browser [b]. *)
Definition quiet (b : Scripted.World) (markup : string) (fs : list Page.Field) : World :=
  mk b [] (inr markup) (inr fs) None None None.

(** The same, where clicking into a field rejects. *)
Definition click_rejects (fs : list Page.Field) : World :=
  mk (Scripted.calm []) [] (inr EmptyString) (inr fs) (Some Scripted.boom) None None.

(** A browser can be launched but it opens no page. *)
Definition no_page : World :=
  quiet (Scripted.mk [] [] [] None None (Some Scripted.boom) None (inr [])) EmptyString [].

(** The page cannot give its markup. *)
Definition no_markup : World :=
  mk (Scripted.calm []) [] (inl Scripted.boom) (inr []) None None None.

(** The process before its first tool call. *)
Definition start (w : World) : State World := mkState None None [] [] [] 0 w.

(** A session that was opened earlier: browser 0, page 1. *)
Definition opened (w : World) : State World := mkState (Some 0) (Some 1) [] [1] [] 2 w.

(** A response that is not on http: an embedded image. *)
Definition data_response : Res.t :=
  Res.mk "data:image/png;base64,AAAA" 200 (inl Scripted.boom) (inr "x").

(** A response with a JSON body. *)
Definition api_response : Res.t :=
  Res.mk "http://api.test/users" 201 (inr (Json.JArray [Json.JNumber 1])) (inr "[1]").

End Desk.

(** ** A driver whose first page creation fails *)

Module Flaky.

(** The world counts the driver calls made; only a [newPage] made as the
    very first call rejects. *)
Definition driver : Driver nat :=
  {| isConnected := fun _ _ => true;
     close := fun _ w => (None, S w);
     launch := fun _ w => (None, S w);
     isClosed := fun _ _ => false;
     newPage := fun _ w => (if Nat.eqb w 0 then Some Scripted.boom else None, S w);
     goto := fun _ _ _ w => (None, S w);
     document := fun _ _ => inr [];
     click := fun _ _ w => S w |}.

(** A connected browser 0 that has no page yet. *)
Definition pageless : State nat := mkState (Some 0) None [] [] [] 1 0.

End Flaky.

(** ** Facts about the primitives *)

(** The layout of a serialized array, indented by two spaces per level. *)
Example stringify_layout :
  Json.stringify (Json.JArray [Json.JNumber 200; Json.JNull; Json.JArray [];
                                Json.JArray [Json.JBool true; Json.JNumber (-7)]]) =
"[
  200,
  null,
  [],
  [
    true,
    -7
  ]
]".
Proof. reflexivity. Qed.

Lemma prefix_app (k s : string) :
  String.prefix k s = true <-> exists b, s = k ++ b.
Proof.
  revert s; induction k as [|c k IH]; intros s; simpl.
  - split; [intros _; now exists s | intros _; now destruct s].
  - destruct s as [|d s]; simpl; [split; [discriminate | intros [b Hb]; discriminate]|].
    destruct (ascii_dec c d) as [->|Hcd].
    + rewrite IH; split; intros [b Hb]; exists b; [now rewrite Hb | now injection Hb].
    + split; [discriminate | intros [b Hb]; injection Hb; intros _ E; now elim Hcd].
Qed.

Lemma prefix_shorter (a b s : string) :
  String.prefix (a ++ b) s = true -> String.prefix a s = true.
Proof.
  rewrite !prefix_app; intros [c Hc]; exists (b ++ c).
  rewrite Hc; clear Hc; induction a as [|x a IH]; simpl; [reflexivity | now rewrite IH].
Qed.

Lemma includes_nil (k : string) :
  Js.includes EmptyString k = String.prefix k EmptyString.
Proof. unfold Js.includes; apply orb_false_r. Qed.

Lemma includes_cons (c : ascii) (s k : string) :
  Js.includes (String c s) k = String.prefix k (String c s) || Js.includes s k.
Proof. reflexivity. Qed.

Lemma includes_substring (s k : string) :
  Js.includes s k = true <-> substring_of k s.
Proof.
  unfold substring_of; induction s as [|c s IH].
  - rewrite includes_nil, prefix_app; split.
    + intros [b Hb]; now exists EmptyString, b.
    + intros [a [b Hab]]; destruct a; [now exists b | discriminate].
  - rewrite includes_cons, orb_true_iff, IH, prefix_app; split.
    + intros [[b Hb] | [a [b Hab]]].
      * now exists EmptyString, b.
      * exists (String c a), b; simpl; now rewrite Hab.
    + intros [a [b Hab]]; destruct a as [|x a]; simpl in Hab.
      * left; now exists b.
      * right; exists a, b; now injection Hab.
Qed.

Lemma includes_nonempty (t k : string) :
  k <> EmptyString -> Js.includes t k = true -> Js.truthy t = true.
Proof.
  intros Hk H; destruct t; [|reflexivity].
  rewrite includes_nil in H; destruct k; [now elim Hk | discriminate].
Qed.

Lemma truthy_nonempty (t : string) : Js.truthy t = true <-> t <> EmptyString.
Proof. destruct t; simpl; split; congruence. Qed.

Lemma truthy_num_filter {A} (f : A -> bool) (l : list A) :
  Js.truthy_num (List.length (filter f l)) = existsb f l.
Proof.
  induction l as [|x l IH]; simpl; [reflexivity|].
  destruct (f x); simpl; [reflexivity | exact IH].
Qed.

(** [find] returns the first element that satisfies the predicate. *)
Lemma find_first {A} (f : A -> bool) (pre post : list A) (x : A) :
  (forall y, In y pre -> f y = false) -> f x = true ->
  find f (pre ++ x :: post)%list = Some x.
Proof.
  intros Hpre Hx; induction pre as [|y pre IH]; simpl.
  - now rewrite Hx.
  - rewrite (Hpre y (or_introl eq_refl)); apply IH; intros z Hz; apply Hpre; now right.
Qed.

Lemma find_none_iff {A} (f : A -> bool) (l : list A) :
  find f l = None <-> (forall y, In y l -> f y = false).
Proof.
  induction l as [|x l IH]; simpl.
  - split; [intros _ y [] | reflexivity].
  - destruct (f x) eqn:Hx.
    + split; [discriminate | intros H; specialize (H x (or_introl eq_refl)); congruence].
    + rewrite IH; split.
      * intros H y [<-|Hy]; [exact Hx | now apply H].
      * intros H y Hy; apply H; now right.
Qed.

(** ** The network recorder and the log queries *)

Section Recorder.

Context {World : Type}.

Lemma check_network_request_eq (k : string) (s : State World) :
  check_network_request k s =
  (inr (if existsb (fun log => Js.includes (url log) k) (networkLogs s)
        then text_result (Json.stringify (logs_json (networkLogs s)))
        else text_result ("No request found for " ++ k)), s).
Proof.
  unfold check_network_request, bind, gets, ret.
  rewrite truthy_num_filter.
  now destruct (existsb _ _).
Qed.

(** C1: when some entry of the log has a url that contains the keyword,
    [check_network_request] returns the serialization of the whole log,
    entries that do not match included; when no entry's url contains it, the
    result is the not-found text and nothing of the log is serialized.  The
    state is not touched in either case. *)
Theorem check_network_request_whole_log_or_not_found :
  forall (k : string) (s : State World),
    ((exists e, In e (networkLogs s) /\ substring_of k (url e)) ->
     check_network_request k s =
     (inr (text_result (Json.stringify (logs_json (networkLogs s)))), s)) /\
    ((forall e, In e (networkLogs s) -> ~ substring_of k (url e)) ->
     check_network_request k s =
     (inr (text_result ("No request found for " ++ k)), s)).
Proof.
  intros k s; rewrite check_network_request_eq; split.
  - intros [e [Hin Hsub]].
    assert (H : existsb (fun log => Js.includes (url log) k) (networkLogs s) = true).
    { apply existsb_exists; exists e; split; [exact Hin | now apply includes_substring]. }
    now rewrite H.
  - intros Hnone.
    destruct (existsb _ _) eqn:H; [|reflexivity].
    apply existsb_exists in H; destruct H as [e [Hin He]].
    elim (Hnone e Hin); now apply includes_substring.
Qed.

Lemma on_response_eq (res : Res.t) (now : string) (s : State World) :
  on_response res now s =
  if Js.startsWith (Res.url res) "http"
  then push_log
         {| url := Res.url res; status := Res.status res;
            body := match Res.json res with
                    | inr v => v
                    | inl _ => match Res.text res with
                               | inr t => Json.JString t
                               | inl _ => Json.JNull
                               end
                    end;
            time := now |} s
  else (inr tt, s).
Proof.
  unfold on_response.
  destruct (Js.startsWith (Res.url res) "http"); simpl; [|reflexivity].
  unfold bind, try_catch, settle, ret, throw.
  destruct (Res.json res) as [e|v]; [|reflexivity].
  destruct (Res.text res) as [e'|t]; reflexivity.
Qed.

(** The filter as the listener writes it: a response is recorded exactly
    when its url begins with the four characters http; it then adds exactly
    one entry, at the end of the log, and otherwise leaves the state as it
    was.  Every http: and https: url begins so. *)
Theorem on_response_records_iff_http_prefix :
  forall (res : Res.t) (now : string) (s : State World),
    exists s',
      on_response res now s = (inr tt, s') /\
      (Js.startsWith (Res.url res) "http" = true ->
       exists b, networkLogs s' =
                 (networkLogs s ++ [mkLogEntry (Res.url res) (Res.status res) b now])%list) /\
      (Js.startsWith (Res.url res) "http" = false -> s' = s) /\
      (http_or_https_url (Res.url res) = true ->
       Js.startsWith (Res.url res) "http" = true).
Proof.
  intros res now s; rewrite on_response_eq.
  assert (Hscheme : http_or_https_url (Res.url res) = true ->
                    Js.startsWith (Res.url res) "http" = true).
  { unfold http_or_https_url, Js.startsWith; intros H.
    apply orb_true_iff in H; destruct H as [H|H].
    - now apply (prefix_shorter "http" ":").
    - now apply (prefix_shorter "http" "s:"). }
  destruct (Js.startsWith (Res.url res) "http").
  - eexists; split; [reflexivity|]; simpl.
    split; [intros _; eexists; reflexivity|].
    split; [discriminate | exact Hscheme].
  - exists s; split; [reflexivity|].
    split; [discriminate|]. split; [reflexivity | exact Hscheme].
Qed.

(** C7: for a retained response the body is the decoded JSON value when that
    decode succeeds, else the raw text when that decode succeeds, else null;
    whichever decode fails, the listener returns normally, and it appends
    one entry in each of the three cases, touching nothing but the log. *)
Theorem on_response_body_fallback :
  forall (res : Res.t) (now : string) (s : State World),
    Js.startsWith (Res.url res) "http" = true ->
    exists (b : Json.value) (s' : State World),
      on_response res now s = (inr tt, s') /\
      networkLogs s' =
        (networkLogs s ++ [mkLogEntry (Res.url res) (Res.status res) b now])%list /\
      (browser s' = browser s /\ page s' = page s /\ world s' = world s) /\
      (forall v, Res.json res = inr v -> b = v) /\
      (forall e t, Res.json res = inl e -> Res.text res = inr t -> b = Json.JString t) /\
      (forall e e', Res.json res = inl e -> Res.text res = inl e' -> b = Json.JNull).
Proof.
  intros res now s Hhttp; rewrite on_response_eq, Hhttp.
  eexists; eexists; split; [reflexivity|]; simpl.
  split; [reflexivity|]. split; [now repeat split|].
  destruct (Res.json res) as [e|v]; [destruct (Res.text res) as [e'|t]|];
    repeat split; intros; congruence.
Qed.

(** On the schemes of a browser, beginning with http is being on http or
    https. *)
Lemma browser_url_http_prefix (u : string) :
  browser_url u = true -> Js.startsWith u "http" = http_or_https_url u.
Proof.
  unfold browser_url; intros H.
  apply existsb_exists in H; destruct H as [scheme [Hin Hs]].
  unfold Js.startsWith in Hs; apply prefix_app in Hs; destruct Hs as [b ->].
  unfold browser_schemes in Hin; simpl in Hin.
  repeat (destruct Hin as [<-|Hin]; [destruct b; reflexivity|]).
  destruct Hin.
Qed.

(** C4: for every response event, on whatever scheme a browser delivers
    it, the recorder appends a log entry if and only if the url is an http
    or https url; a response on any other scheme (data:, blob:, chrome:,
    ...) is discarded and leaves the whole state as it was, and a retained
    response adds exactly one entry, at the end of the log.  The listener
    returns normally either way. *)
Theorem on_response_records_iff_http_or_https :
  forall (res : Res.t) (now : string) (s : State World),
    browser_url (Res.url res) = true ->
    exists s',
      on_response res now s = (inr tt, s') /\
      (List.length (networkLogs s') = S (List.length (networkLogs s)) <->
       http_or_https_url (Res.url res) = true) /\
      (http_or_https_url (Res.url res) = true ->
       exists b, networkLogs s' =
                 (networkLogs s ++ [mkLogEntry (Res.url res) (Res.status res) b now])%list) /\
      (http_or_https_url (Res.url res) = false -> s' = s).
Proof.
  intros res now s Hu; rewrite on_response_eq, (browser_url_http_prefix _ Hu).
  destruct (http_or_https_url (Res.url res)).
  - eexists; split; [reflexivity|]; simpl.
    split; [split; [reflexivity|]; intros _; rewrite length_app; simpl; lia|].
    split; [intros _; eexists; reflexivity | discriminate].
  - exists s; split; [reflexivity|].
    split; [split; [intros H; lia | discriminate]|].
    split; [discriminate | reflexivity].
Qed.

Lemma on_response_keeps_handles (res : Res.t) (now : string) (s : State World)
      (r : Js.Error + unit) (s' : State World) :
  on_response res now s = (r, s') ->
  browser s' = browser s /\ page s' = page s /\ next_handle s' = next_handle s.
Proof.
  rewrite on_response_eq; destruct (Js.startsWith (Res.url res) "http");
    intros H; injection H as _ <-; now repeat split.
Qed.

End Recorder.

(** ** Element descriptors *)

Lemma or_else_null (v : option string) :
  (blank v -> Js.or_else v None = None) /\
  (forall t, v = Some t -> t <> EmptyString -> Js.or_else v None = Some t) /\
  Js.or_else v None <> Some EmptyString.
Proof.
  unfold blank, Js.or_else; destruct v as [[|c t]|]; simpl; repeat split;
    try congruence; intros [H|H]; congruence.
Qed.

(** C10: every descriptor of [list_elements] comes from an element of the
    document; its type and its placeholder are null when the attribute is
    absent or empty and the attribute otherwise; its text is the innerText
    when that is a non-empty string, else the value when that is a non-empty
    string, else null; and none of the three is ever the empty string. *)
Theorem list_elements_blank_is_null :
  forall (doc : Dom.Document) (d : Descriptor.t),
    In d (list_elements_script doc) ->
    exists el,
      In el doc /\
      (blank (Dom.getAttribute_type el) -> Descriptor.type d = None) /\
      (forall t, Dom.getAttribute_type el = Some t -> t <> EmptyString ->
                 Descriptor.type d = Some t) /\
      (blank (Dom.getAttribute_placeholder el) -> Descriptor.placeholder d = None) /\
      (forall t, Dom.getAttribute_placeholder el = Some t -> t <> EmptyString ->
                 Descriptor.placeholder d = Some t) /\
      (forall t, Dom.innerText el = Some t -> t <> EmptyString ->
                 Descriptor.text d = Some t) /\
      (forall v, blank (Dom.innerText el) -> Dom.value el = Some v -> v <> EmptyString ->
                 Descriptor.text d = Some v) /\
      (blank (Dom.innerText el) -> blank (Dom.value el) -> Descriptor.text d = None) /\
      Descriptor.type d <> Some EmptyString /\
      Descriptor.placeholder d <> Some EmptyString /\
      Descriptor.text d <> Some EmptyString.
Proof.
  intros doc d Hd; unfold list_elements_script in Hd.
  apply in_map_iff in Hd; destruct Hd as [el [<- Hel]].
  apply filter_In in Hel; destruct Hel as [Hel _].
  exists el; split; [exact Hel|]; unfold describe; simpl.
  destruct (or_else_null (Dom.getAttribute_type el)) as [T1 [T2 T3]].
  destruct (or_else_null (Dom.getAttribute_placeholder el)) as [P1 [P2 P3]].
  repeat (split; [assumption|]).
  assert (X : Js.or_else (Js.or_else (Dom.innerText el) (Dom.value el)) None
              <> Some EmptyString) by apply or_else_null.
  split; [|split; [|split; [|split; [|split]; assumption]]].
  - intros t -> Ht; destruct t; [now elim Ht | reflexivity].
  - intros v [->| ->] -> Hv; (destruct v; [now elim Hv | reflexivity]).
  - intros [->| ->] [->| ->]; reflexivity.
Qed.

(** ** The session routine *)

Section Session.

Context {World : Type} (drv : Driver World).

Ltac run :=
  unfold initBrowser, initBrowser_try, try_catch, bind, gets, ask, await, fresh,
    set_browser, set_page, set_world, add_listener, console_error, modify, deref,
    settle, ret, throw, with_world, browser_dead, page_dead, close_stale in *;
  simpl in *.

(** Rewrite with the equations at hand for as long as one applies. *)
Ltac replay :=
  repeat (simpl; match goal with
                 | H : ?l = _ |- context [?l] => rewrite H
                 end);
  simpl.

(** Open the state, so that its fields compute. *)
Ltac open_state s :=
  destruct s as [? ? ? ? ? ? ?]; run; subst.

(** The [catch] block: whatever the [try] block threw is thrown again,
    after both variables were set to null. *)
Lemma initBrowser_catch (s : State World) (e : Js.Error) (s1 : State World) :
  initBrowser_try drv s = (inl e, s1) ->
  initBrowser drv s =
  (inl e, mkState None None (networkLogs s1) (listeners s1) (console s1 ++ [e])%list
                  (next_handle s1) (world s1)).
Proof. unfold initBrowser, try_catch; intros ->; reflexivity. Qed.

Lemma initBrowser_pass (s : State World) (r : option PageH) (s1 : State World) :
  initBrowser_try drv s = (inr r, s1) -> initBrowser drv s = (inr r, s1).
Proof. unfold initBrowser, try_catch; intros ->; reflexivity. Qed.

Lemma initBrowser_live (s : State World) (b : BrowserH) (p : PageH) :
  browser s = Some b -> isConnected drv b (world s) = true ->
  page s = Some p -> isClosed drv p (world s) = false ->
  initBrowser drv s = (inr (Some p), s).
Proof. intros Hb Hc Hp Ho; open_state s; replay; reflexivity. Qed.

Lemma initBrowser_close_fails (s : State World) (b : BrowserH) (e : Js.Error) (w1 : World) :
  browser s = Some b -> isConnected drv b (world s) = false ->
  close drv b (world s) = (Some e, w1) ->
  initBrowser drv s =
  (inl e, mkState None None (networkLogs s) (listeners s) (console s ++ [e])%list
                  (next_handle s) w1).
Proof. intros Hb Hc Hx; open_state s; replay; reflexivity. Qed.

Lemma initBrowser_launch_fails (s : State World) (e : Js.Error) (w1 w2 : World) :
  browser_dead drv (browser s) (world s) = true ->
  close_stale drv (browser s) (world s) = (None, w1) ->
  launch drv launch_options w1 = (Some e, w2) ->
  initBrowser drv s =
  (inl e, mkState None None (networkLogs s) (listeners s) (console s ++ [e])%list
                  (next_handle s) w2).
Proof.
  intros Hd Hx Hl; open_state s.
  destruct browser0; [|injection Hx as <-]; replay; reflexivity.
Qed.

Lemma initBrowser_newPage_fails (s : State World) (b : BrowserH) (e : Js.Error) (w1 : World) :
  browser s = Some b -> isConnected drv b (world s) = true ->
  page_dead drv (page s) (world s) = true ->
  newPage drv b (world s) = (Some e, w1) ->
  initBrowser drv s =
  (inl e, mkState None None (networkLogs s) (listeners s) (console s ++ [e])%list
                  (next_handle s) w1).
Proof. intros Hb Hc Hd Hn; open_state s; replay; reflexivity. Qed.

Lemma initBrowser_relaunch_newPage_fails (s : State World) (e : Js.Error) (w1 w2 w3 : World) :
  browser_dead drv (browser s) (world s) = true ->
  close_stale drv (browser s) (world s) = (None, w1) ->
  launch drv launch_options w1 = (None, w2) ->
  page_dead drv (page s) w2 = true ->
  newPage drv (next_handle s) w2 = (Some e, w3) ->
  initBrowser drv s =
  (inl e, mkState None None (networkLogs s) (listeners s) (console s ++ [e])%list
                  (S (next_handle s)) w3).
Proof.
  intros Hd Hx Hl Hp Hn; open_state s.
  destruct browser0; [|injection Hx as <-]; replay; reflexivity.
Qed.

Lemma initBrowser_relaunch_new_page (s : State World) (w1 w2 w3 : World) :
  browser_dead drv (browser s) (world s) = true ->
  close_stale drv (browser s) (world s) = (None, w1) ->
  launch drv launch_options w1 = (None, w2) ->
  page_dead drv (page s) w2 = true ->
  newPage drv (next_handle s) w2 = (None, w3) ->
  initBrowser drv s =
  (inr (Some (S (next_handle s))),
   mkState (Some (next_handle s)) (Some (S (next_handle s))) (networkLogs s)
           (S (next_handle s) :: listeners s) (console s) (S (S (next_handle s))) w3).
Proof.
  intros Hd Hx Hl Hp Hn; open_state s.
  destruct browser0; [|injection Hx as <-]; replay; reflexivity.
Qed.

Lemma initBrowser_relaunch_keeps_page (s : State World) (p : PageH) (w1 w2 : World) :
  browser_dead drv (browser s) (world s) = true ->
  close_stale drv (browser s) (world s) = (None, w1) ->
  launch drv launch_options w1 = (None, w2) ->
  page s = Some p -> isClosed drv p w2 = false ->
  initBrowser drv s =
  (inr (Some p),
   mkState (Some (next_handle s)) (Some p) (networkLogs s) (listeners s) (console s)
           (S (next_handle s)) w2).
Proof.
  intros Hd Hx Hl Hp Ho; open_state s.
  destruct browser0; [|injection Hx as <-]; replay; reflexivity.
Qed.

Lemma initBrowser_new_page (s : State World) (b : BrowserH) (w1 : World) :
  browser s = Some b -> isConnected drv b (world s) = true ->
  page_dead drv (page s) (world s) = true ->
  newPage drv b (world s) = (None, w1) ->
  initBrowser drv s =
  (inr (Some (next_handle s)),
   mkState (Some b) (Some (next_handle s)) (networkLogs s) (next_handle s :: listeners s)
           (console s) (S (next_handle s)) w1).
Proof. intros Hb Hc Hd Hn; open_state s; replay; reflexivity. Qed.

(** Split on an innermost scrutinee of the run recorded in [H]. *)
Ltac branch H :=
  match type of H with
  | context [match ?x with _ => _ end] =>
      lazymatch x with
      | context [match _ with _ => _ end] => fail
      | _ => destruct x eqn:?; simpl in H
      end
  end.

(** Whatever [initBrowser] answers, a handle held afterwards was held before
    or is new, and the handles held stay below the next identity. *)
Lemma initBrowser_handles (s : State World) (r : Js.Error + option PageH) (s' : State World) :
  handles_known s -> initBrowser drv s = (r, s') ->
  handles_known s' /\ next_handle s <= next_handle s' /\
  (forall b, browser s' = Some b -> browser s = Some b \/ next_handle s <= b) /\
  (forall p, page s' = Some p -> page s = Some p \/ next_handle s <= p).
Proof.
  intros [Kb Kp] H; unfold handles_known; open_state s.
  repeat branch H;
    injection H as <- <-; simpl;
    try pose proof (Kb _ eq_refl); try pose proof (Kp _ eq_refl);
    (split; [split|split; [|split]]); intros; try discriminate; try lia; auto;
    try (match goal with E : Some _ = Some _ |- _ => injection E as <- end; lia);
    try (right; match goal with E : Some _ = Some _ |- _ => injection E as <- end; lia).
Qed.

Lemma later_handles (s0 s : State World) :
  handles_known s0 -> later drv s0 s ->
  handles_known s /\ next_handle s0 <= next_handle s /\
  (forall b, browser s = Some b -> browser s0 = Some b \/ next_handle s0 <= b) /\
  (forall p, page s = Some p -> page s0 = Some p \/ next_handle s0 <= p).
Proof.
  intros K0 L; induction L as [|s1 r s2 L IH E|s1 res now r s2 L IH E|s1 w L IH].
  - repeat split; try apply K0; auto.
  - destruct IH as [K1 [N1 [B1 P1]]].
    destruct (initBrowser_handles s1 r s2 K1 E) as [K2 [N2 [B2 P2]]].
    split; [exact K2|]. split; [lia|]. split.
    + intros b Hb; destruct (B2 b Hb) as [H|H]; [now apply B1 | right; lia].
    + intros p Hp; destruct (P2 p Hp) as [H|H]; [now apply P1 | right; lia].
  - destruct (on_response_keeps_handles res now s1 r s2 E) as [Eb [Ep En]].
    unfold handles_known; now rewrite Eb, Ep, En.
  - exact IH.
Qed.

(** A successful call returns the page the variable holds, and both
    variables hold a handle. *)
Lemma initBrowser_returns_page (s : State World) (r : option PageH) (s' : State World) :
  initBrowser drv s = (inr r, s') ->
  exists b p, r = Some p /\ page s' = Some p /\ browser s' = Some b.
Proof.
  intros H; open_state s.
  repeat branch H; try discriminate; injection H as <- <-; simpl; eauto.
Qed.

(** C6: on a live session, that is a held browser that reports connected
    and a held page that does not report closed, [initBrowser] returns the
    held page and leaves the whole state as it was: browser, page, log and
    all the rest; so does calling it again. *)
Theorem initBrowser_idempotent_when_live :
  forall (s : State World) (b : BrowserH) (p : PageH),
    browser s = Some b -> isConnected drv b (world s) = true ->
    page s = Some p -> isClosed drv p (world s) = false ->
    initBrowser drv s = (inr (Some p), s) /\
    bind (initBrowser drv) (fun _ => initBrowser drv) s = (inr (Some p), s).
Proof.
  intros s b p Hb Hc Hp Ho.
  pose proof (initBrowser_live s b p Hb Hc Hp Ho) as H.
  split; [exact H|]. unfold bind; now rewrite H.
Qed.

(** C5: a call of [initBrowser] that fails leaves both variables null, and
    the error of the failing step is the error the caller gets: a rejected
    launch, a rejected page creation on a live browser, and a rejected page
    creation after a relaunch all propagate. *)
Theorem initBrowser_failure_clears_both :
  forall (s : State World),
    (forall e s', initBrowser drv s = (inl e, s') -> browser s' = None /\ page s' = None) /\
    (forall e w1 w2,
        browser_dead drv (browser s) (world s) = true ->
        close_stale drv (browser s) (world s) = (None, w1) ->
        launch drv launch_options w1 = (Some e, w2) ->
        exists s', initBrowser drv s = (inl e, s') /\ browser s' = None /\ page s' = None) /\
    (forall b e w1,
        browser s = Some b -> isConnected drv b (world s) = true ->
        page_dead drv (page s) (world s) = true ->
        newPage drv b (world s) = (Some e, w1) ->
        exists s', initBrowser drv s = (inl e, s') /\ browser s' = None /\ page s' = None) /\
    (forall e w1 w2 w3,
        browser_dead drv (browser s) (world s) = true ->
        close_stale drv (browser s) (world s) = (None, w1) ->
        launch drv launch_options w1 = (None, w2) ->
        page_dead drv (page s) w2 = true ->
        newPage drv (next_handle s) w2 = (Some e, w3) ->
        exists s', initBrowser drv s = (inl e, s') /\ browser s' = None /\ page s' = None).
Proof.
  intros s; split; [|split; [|split]].
  - intros e s' H; unfold initBrowser, try_catch in H.
    destruct (initBrowser_try drv s) as [[e0|r] s1]; [|discriminate].
    injection H as _ <-; now split.
  - intros e w1 w2 Hd Hx Hl; eexists; split;
      [apply (initBrowser_launch_fails s e w1 w2 Hd Hx Hl) | now split].
  - intros b e w1 Hb Hc Hd Hn; eexists; split;
      [apply (initBrowser_newPage_fails s b e w1 Hb Hc Hd Hn) | now split].
  - intros e w1 w2 w3 Hd Hx Hl Hp Hn; eexists; split;
      [apply (initBrowser_relaunch_newPage_fails s e w1 w2 w3 Hd Hx Hl Hp Hn) | now split].
Qed.

(** C2, as amended: with a held browser that reports disconnected,
    [initBrowser] closes it first.  An error of that close is not swallowed:
    the caller gets it, both variables are null, and the world is the one the
    close left, no launch having been made; the call after that one launches
    without closing anything and can succeed.  When the close resolves, the
    relaunch goes on in the same call. *)
Theorem initBrowser_close_error_propagates :
  forall (s : State World) (b : BrowserH),
    browser s = Some b -> isConnected drv b (world s) = false ->
    (forall e w1,
        close drv b (world s) = (Some e, w1) ->
        let s1 := mkState None None (networkLogs s) (listeners s) (console s ++ [e])%list
                          (next_handle s) w1 in
        initBrowser drv s = (inl e, s1) /\
        (forall w2 w3,
            launch drv launch_options w1 = (None, w2) ->
            newPage drv (next_handle s) w2 = (None, w3) ->
            initBrowser drv s1 =
            (inr (Some (S (next_handle s))),
             mkState (Some (next_handle s)) (Some (S (next_handle s))) (networkLogs s)
                     (S (next_handle s) :: listeners s) (console s ++ [e])%list
                     (S (S (next_handle s))) w3))) /\
    (forall w1 w2 w3,
        close drv b (world s) = (None, w1) ->
        launch drv launch_options w1 = (None, w2) ->
        page_dead drv (page s) w2 = true ->
        newPage drv (next_handle s) w2 = (None, w3) ->
        initBrowser drv s =
        (inr (Some (S (next_handle s))),
         mkState (Some (next_handle s)) (Some (S (next_handle s))) (networkLogs s)
                 (S (next_handle s) :: listeners s) (console s) (S (S (next_handle s))) w3)).
Proof.
  intros s b Hb Hc; split.
  - intros e w1 Hx s1; split; [exact (initBrowser_close_fails s b e w1 Hb Hc Hx)|].
    intros w2 w3 Hl Hn.
    exact (initBrowser_relaunch_new_page s1 w1 w2 w3 eq_refl eq_refl Hl eq_refl Hn).
  - intros w1 w2 w3 Hx Hl Hp Hn.
    apply (initBrowser_relaunch_new_page s w1 w2 w3); try assumption.
    + unfold browser_dead; now rewrite Hb, Hc.
    + unfold close_stale; now rewrite Hb.
Qed.

(** C3, as amended: when the held browser reports disconnected, a call of
    [initBrowser] that succeeds has closed it and launched another; the
    browser held afterwards is a new handle, and the old one is not held
    again in any later state.  The page is looked at after the launch: if
    none is held or the held one reports closed, the call returns a new page
    handle and the old one is not held again in any later state; if the held
    page does not report closed, the call returns that same page and keeps
    holding it. *)
Theorem initBrowser_after_disconnect :
  forall (s : State World) (b : BrowserH) (r : option PageH) (s' : State World),
    handles_known s ->
    browser s = Some b -> isConnected drv b (world s) = false ->
    initBrowser drv s = (inr r, s') ->
    exists w1 w2,
      close drv b (world s) = (None, w1) /\
      launch drv launch_options w1 = (None, w2) /\
      browser s' = Some (next_handle s) /\ next_handle s <> b /\
      (forall s'', later drv s' s'' -> browser s'' <> Some b) /\
      (page_dead drv (page s) w2 = true ->
       r = Some (S (next_handle s)) /\ page s' = r /\
       forall p s'', page s = Some p -> later drv s' s'' -> page s'' <> Some p) /\
      (page_dead drv (page s) w2 = false -> r = page s /\ page s' = page s).
Proof.
  intros s b r s' K Hb Hc H.
  destruct (initBrowser_handles s (inr r) s' K H) as [K' [N' _]].
  pose proof K as [KB KP].
  assert (Kb : b < next_handle s) by (apply KB; exact Hb).
  assert (Dead : browser_dead drv (browser s) (world s) = true)
    by (unfold browser_dead; now rewrite Hb, Hc).
  destruct (close drv b (world s)) as [[e|] w1] eqn:Hx.
  { rewrite (initBrowser_close_fails s b e w1 Hb Hc Hx) in H; discriminate. }
  assert (Hx' : close_stale drv (browser s) (world s) = (None, w1))
    by (unfold close_stale; now rewrite Hb).
  destruct (launch drv launch_options w1) as [[e|] w2] eqn:Hl.
  { rewrite (initBrowser_launch_fails s e w1 w2 Dead Hx' Hl) in H; discriminate. }
  exists w1, w2; split; [reflexivity|]; split; [exact Hl|].
  assert (Later : forall s'', later drv s' s'' ->
            next_handle s' <= next_handle s'' /\
            (forall x, browser s'' = Some x -> browser s' = Some x \/ next_handle s' <= x) /\
            (forall x, page s'' = Some x -> page s' = Some x \/ next_handle s' <= x)).
  { intros s'' L; now destruct (later_handles s' s'' K' L) as [_ ?]. }
  destruct (page_dead drv (page s) w2) eqn:Hp.
  - destruct (newPage drv (next_handle s) w2) as [[e|] w3] eqn:Hn.
    { rewrite (initBrowser_relaunch_newPage_fails s e w1 w2 w3 Dead Hx' Hl Hp Hn) in H.
      discriminate. }
    rewrite (initBrowser_relaunch_new_page s w1 w2 w3 Dead Hx' Hl Hp Hn) in H.
    injection H as <- <-; simpl in *.
    split; [reflexivity|]. split; [lia|]. split.
    + intros s'' L E; destruct (Later s'' L) as [_ [B _]].
      destruct (B b E) as [X|X]; [injection X as X|]; lia.
    + split; [|discriminate]. intros _; split; [reflexivity|]. split; [reflexivity|].
      intros p s'' Hpg L E; destruct (Later s'' L) as [_ [_ P]].
      assert (p < next_handle s) by (apply KP; exact Hpg).
      destruct (P p E) as [X|X]; [injection X as X|]; lia.
  - destruct (page s) as [p|] eqn:Hpg; [|discriminate Hp]. simpl in Hp.
    rewrite (initBrowser_relaunch_keeps_page s p w1 w2 Dead Hx' Hl Hpg Hp) in H.
    injection H as <- <-; simpl in *.
    split; [reflexivity|]. split; [lia|]. split.
    + intros s'' L E; destruct (Later s'' L) as [_ [B _]].
      destruct (B b E) as [X|X]; [injection X as X|]; lia.
    + split; [discriminate|]. intros _; now split.
Qed.

End Session.

(** ** The tools that drive the page *)

Lemma clickable_kind_iff (e : Dom.Element) :
  Dom.matches Dom.sel_clickable e = true <-> clickable_kind e.
Proof.
  unfold Dom.matches, Dom.sel_clickable, clickable_kind; simpl.
  rewrite orb_false_r, !orb_true_iff, andb_true_iff, !String.eqb_eq.
  destruct (Dom.getAttribute_type e) as [t|].
  - rewrite String.eqb_eq; split.
    + intros [H|[H|[H1 H2]]]; auto. right; right; split; [exact H1 | now exists t].
    + intros [H|[H|[H1 [t' [E H2]]]]]; auto. injection E as <-; auto.
  - split.
    + intros [H|[H|[_ H]]]; auto; discriminate.
    + intros [H|[H|[_ [t' [E _]]]]]; auto; discriminate.
Qed.

Lemma click_pred_iff (k : string) (e : Dom.Element) :
  click_pred k e = true <->
  (exists t, Dom.innerText e = Some t /\ t <> EmptyString /\ substring_of k t) \/
  (exists t, Dom.type e = Some t /\ t <> EmptyString /\ t = k).
Proof.
  unfold click_pred; rewrite orb_true_iff.
  split.
  - intros [H|H]; [left|right].
    + destruct (Dom.innerText e) as [t|]; [|discriminate].
      apply andb_true_iff in H; destruct H as [H1 H2].
      exists t; split; [reflexivity|]. split; [now apply truthy_nonempty|].
      now apply includes_substring.
    + destruct (Dom.type e) as [t|]; [|discriminate].
      apply andb_true_iff in H; destruct H as [H1 H2].
      exists t; split; [reflexivity|]. split; [now apply truthy_nonempty|].
      now apply String.eqb_eq.
  - intros [[t [-> [H1 H2]]]|[t [-> [H1 H2]]]]; [left|right]; apply andb_true_iff; split.
    + now apply truthy_nonempty.
    + now apply includes_substring.
    + now apply truthy_nonempty.
    + now apply String.eqb_eq.
Qed.

Lemma click_pred_nonempty_keyword (k : string) (e : Dom.Element) :
  k <> EmptyString -> type_reflects_attribute e ->
  click_pred k e = text_contains_or_type_equals k e.
Proof.
  intros Hk Hty; unfold click_pred, text_contains_or_type_equals; f_equal.
  - destruct (Dom.innerText e) as [t|]; [|reflexivity].
    destruct (Js.includes t k) eqn:H; [|apply andb_false_r].
    now rewrite (includes_nonempty t k Hk H).
  - unfold type_reflects_attribute in Hty; rewrite Hty.
    destruct (Dom.getAttribute_type e) as [t|]; [|reflexivity].
    destruct (t =? k) eqn:H; [|apply andb_false_r].
    apply String.eqb_eq in H; subst t; destruct k; [now elim Hk | reflexivity].
Qed.

Section Tools.

Context {World : Type} (drv : Driver World).

(** [list_elements] answers with the serialized descriptors of the in-page
    function, in document order, and changes nothing after the acquire. *)
Lemma list_elements_serializes_descriptors
      (s : State World) (p : PageH) (s1 : State World) (doc : Dom.Document) :
  initBrowser drv s = (inr (Some p), s1) ->
  document drv p (world s1) = inr doc ->
  list_elements drv s =
  (inr (text_result
          (Json.stringify (Json.JArray (map Descriptor.to_json (list_elements_script doc))))),
   s1).
Proof.
  intros H Hdoc; unfold list_elements, bind at 1; rewrite H.
  unfold bind, deref, ask, gets, settle, ret; simpl; now rewrite Hdoc.
Qed.

(** C8, as amended: [visit_page] calls [goto] on the page [initBrowser]
    returned, waiting for networkidle2 with a timeout of 30000 ms.  When
    that call resolves the result is the one text block of success; when it
    rejects the result is the one text block that carries the error's
    message, nothing is thrown, and the variables keep the handles
    [initBrowser] left.  An error of [initBrowser] itself is not caught: it
    is thrown to the caller of the tool. *)
Theorem visit_page_reports_navigation_outcome :
  forall (url : string) (s : State World),
    (forall e s1, initBrowser drv s = (inl e, s1) -> visit_page drv url s = (inl e, s1)) /\
    (forall r s1,
        initBrowser drv s = (inr r, s1) ->
        exists p,
          r = Some p /\ page s1 = Some p /\
          (forall w, goto drv p url goto_options (world s1) = (None, w) ->
                     visit_page drv url s =
                     (inr (text_result ("✅ Visited " ++ url)), with_world s1 w)) /\
          (forall err w, goto drv p url goto_options (world s1) = (Some err, w) ->
                         visit_page drv url s =
                         (inr (text_result ("❌ Visit failed: " ++ Js.message err)),
                          with_world s1 w))) /\
    waitUntil goto_options = networkidle2 /\ timeout goto_options = 30000%Z.
Proof.
  intros u s; split; [|split; [|now split]].
  - intros e s1 H; unfold visit_page, bind; now rewrite H.
  - intros r s1 H.
    destruct (initBrowser_returns_page drv s r s1 H) as [b [p [-> [Hp _]]]].
    exists p; split; [reflexivity|]; split; [exact Hp|]; split.
    + intros w Hg; unfold visit_page, bind at 1; rewrite H.
      unfold try_catch, bind, deref, await, ret; now rewrite Hg.
    + intros err w Hg; unfold visit_page, bind at 1; rewrite H.
      unfold try_catch, bind, deref, await, ret; now rewrite Hg.
Qed.

(** C9, as amended: among the anchors, buttons and submit inputs of the
    document, in document order, [click_element] clicks the first one whose
    text is a non-empty string that contains the keyword or whose [type]
    property (what [e.type] reads, not the attribute) is a non-empty string
    equal to it, and answers with the found text; when there is none it
    clicks nothing and answers with the not-found text.  This is the match
    "text contains the keyword or type attribute equals it" for every
    keyword but the empty one on every element whose type property merely
    reflects its attribute. *)
Theorem click_element_first_match :
  forall (k : string) (s : State World) (p : PageH) (s1 : State World) (doc : Dom.Document),
    initBrowser drv s = (inr (Some p), s1) ->
    document drv p (world s1) = inr doc ->
    (forall pre el post,
        Dom.querySelectorAll doc Dom.sel_clickable = (pre ++ el :: post)%list ->
        (forall x, In x pre -> click_pred k x = false) ->
        click_pred k el = true ->
        click_element drv k s =
        (inr (text_result ("✅ Clicked " ++ k)), with_world s1 (click drv p el (world s1)))) /\
    ((forall x, In x (Dom.querySelectorAll doc Dom.sel_clickable) -> click_pred k x = false) ->
     click_element drv k s = (inr (text_result ("❌ Not Found: " ++ k)), s1)) /\
    (forall e, In e (Dom.querySelectorAll doc Dom.sel_clickable) <->
               In e doc /\ clickable_kind e) /\
    (forall e, click_pred k e = true <->
               (exists t, Dom.innerText e = Some t /\ t <> EmptyString /\ substring_of k t) \/
               (exists t, Dom.type e = Some t /\ t <> EmptyString /\ t = k)) /\
    (k <> EmptyString ->
     forall e, type_reflects_attribute e ->
               click_pred k e = text_contains_or_type_equals k e).
Proof.
  intros k s p s1 doc H Hdoc.
  assert (Run : click_element drv k s =
                match click_target k doc with
                | Some el => (inr (text_result ("✅ Clicked " ++ k)),
                              with_world s1 (click drv p el (world s1)))
                | None => (inr (text_result ("❌ Not Found: " ++ k)), s1)
                end).
  { unfold click_element, bind at 1; rewrite H.
    unfold bind, deref, ask, gets, settle, ret, set_world, modify; simpl.
    rewrite Hdoc; now destruct (click_target k doc). }
  split; [|split; [|split; [|split]]].
  - intros pre el post Hsel Hpre Hel; rewrite Run; unfold click_target.
    now rewrite Hsel, (find_first _ pre post el Hpre Hel).
  - intros Hnone; rewrite Run; unfold click_target.
    now rewrite (proj2 (find_none_iff _ _) Hnone).
  - intros e; unfold Dom.querySelectorAll; now rewrite filter_In, clickable_kind_iff.
  - intros e; apply click_pred_iff.
  - intros Hk e Hty; now apply click_pred_nonempty_keyword.
Qed.

End Tools.

(** ** Runs on the scripted driver *)

Import Scripted.

Lemma check_network_request_whole_log_or_not_found_witness :
  check_network_request "foo" (opened two_entries (calm [])) =
    (inr (text_result (Json.stringify (logs_json two_entries))),
     opened two_entries (calm [])) /\
  check_network_request "bar" (opened two_entries (calm [])) =
    (inr (text_result "No request found for bar"), opened two_entries (calm [])).
Proof.
  destruct (check_network_request_whole_log_or_not_found "foo"
              (opened two_entries (calm []))) as [Hyes _].
  destruct (check_network_request_whole_log_or_not_found "bar"
              (opened two_entries (calm []))) as [_ Hno].
  split.
  - apply Hyes; exists (entry "https://api.test/foo"); split; [left; reflexivity|].
    exists "https://api.test/", EmptyString; reflexivity.
  - apply Hno; intros e [<-|[<-|[]]] Hs; apply includes_substring in Hs;
      vm_compute in Hs; discriminate Hs.
Defined.

(** The close of the stale browser rejects: the caller gets that error,
    and the only driver call made is the close. *)
Lemma close_error_is_thrown :
  fst (initBrowser driver (opened [] close_rejects)) = inl boom /\
  browser (snd (initBrowser driver (opened [] close_rejects))) = None /\
  trace (world (snd (initBrowser driver (opened [] close_rejects)))) = [CallClose 0].
Proof. repeat split. Qed.

Lemma initBrowser_close_error_propagates_witness :
  initBrowser driver (opened [] close_rejects) =
  (inl boom, mkState None None [] [1] [boom] 2 (record (CallClose 0) close_rejects)).
Proof.
  exact (proj1 (proj1 (initBrowser_close_error_propagates driver (opened [] close_rejects) 0
                         eq_refl eq_refl)
                 boom (record (CallClose 0) close_rejects) eq_refl)).
Defined.

Lemma opened_handles_known (logs : list LogEntry) (w : World) :
  handles_known (opened logs w).
Proof. split; intros x E; injection E as <-; simpl; lia. Qed.

(** The browser reports disconnected while its page does not report
    closed: the call succeeds and returns the old page handle. *)
Lemma old_page_returned_after_relaunch :
  handles_known (opened [] browser_gone) /\
  isConnected driver 0 (world (opened [] browser_gone)) = false /\
  page (opened [] browser_gone) = Some 1 /\
  fst (initBrowser driver (opened [] browser_gone)) = inr (Some 1) /\
  page (snd (initBrowser driver (opened [] browser_gone))) = Some 1.
Proof. split; [apply opened_handles_known | repeat split]. Qed.

Lemma initBrowser_after_disconnect_witness :
  browser (snd (initBrowser driver (opened [] session_gone))) = Some 2 /\
  fst (initBrowser driver (opened [] session_gone)) = inr (Some 3).
Proof.
  destruct (initBrowser_after_disconnect driver (opened [] session_gone) 0
              (Some 3) (snd (initBrowser driver (opened [] session_gone)))
              (opened_handles_known [] session_gone) eq_refl eq_refl eq_refl)
    as [w1 [w2 [_ [_ [Hb _]]]]].
  split; [exact Hb | reflexivity].
Defined.

Lemma on_response_records_iff_http_or_https_witness :
  (exists b, networkLogs (snd (on_response html_response "t" (start (calm [])))) =
             [mkLogEntry "https://site.test/" 200 b "t"]) /\
  snd (on_response embedded_response "t" (opened two_entries (calm []))) =
  opened two_entries (calm []).
Proof.
  destruct (on_response_records_iff_http_or_https html_response "t" (start (calm [])) eq_refl)
    as [s1 [E1 [_ [Hyes _]]]].
  destruct (on_response_records_iff_http_or_https embedded_response "t"
              (opened two_entries (calm [])) eq_refl)
    as [s2 [E2 [_ [_ Hno]]]].
  rewrite E1, E2; simpl; split; [exact (Hyes eq_refl) | exact (Hno eq_refl)].
Defined.

Lemma on_response_records_iff_http_prefix_witness :
  exists s', on_response html_response "t" (start (calm [])) = (inr tt, s') /\
             List.length (networkLogs s') = 1.
Proof.
  destruct (on_response_records_iff_http_prefix html_response "t" (start (calm [])))
    as [s' [E [Hyes _]]].
  exists s'; split; [exact E|].
  destruct (Hyes eq_refl) as [b ->]; reflexivity.
Defined.

Lemma initBrowser_failure_clears_both_witness :
  exists s', initBrowser driver (start launch_rejects) = (inl boom, s') /\
             browser s' = None /\ page s' = None.
Proof.
  exact (proj1 (proj2 (initBrowser_failure_clears_both driver (start launch_rejects)))
           boom launch_rejects (record (CallLaunch launch_options) launch_rejects)
           eq_refl eq_refl eq_refl).
Defined.

Lemma initBrowser_idempotent_when_live_witness :
  initBrowser driver (opened two_entries (calm [])) =
  (inr (Some 1), opened two_entries (calm [])).
Proof.
  exact (proj1 (initBrowser_idempotent_when_live driver (opened two_entries (calm [])) 0 1
                  eq_refl eq_refl eq_refl eq_refl)).
Defined.

Lemma on_response_body_fallback_witness :
  exists s', on_response html_response "t" (start (calm [])) = (inr tt, s') /\
             networkLogs s' = [mkLogEntry "https://site.test/" 200 (Json.JString "<html>") "t"].
Proof.
  destruct (on_response_body_fallback html_response "t" (start (calm [])) eq_refl)
    as [b [s' [E [L [_ [_ [Htext _]]]]]]].
  exists s'; split; [exact E|].
  rewrite L, (Htext _ _ eq_refl eq_refl); reflexivity.
Defined.

(** No browser can be launched: [visit_page] throws instead of returning
    a text result. *)
Lemma visit_page_throws_when_launch_rejects :
  fst (visit_page driver "http://example.com" (start launch_rejects)) = inl boom.
Proof. reflexivity. Qed.

Lemma visit_page_reports_navigation_outcome_witness :
  fst (visit_page driver "http://example.com" (start goto_rejects)) =
  inr (text_result "❌ Visit failed: net::ERR_NAME_NOT_RESOLVED").
Proof.
  destruct (proj1 (proj2 (visit_page_reports_navigation_outcome driver
                            "http://example.com" (start goto_rejects)))
              (Some 1) (snd (initBrowser driver (start goto_rejects))) eq_refl)
    as [p [Hp [_ [_ Hfail]]]].
  injection Hp as <-.
  now rewrite (Hfail _ _ eq_refl).
Defined.

(** Two departures from "text contains the keyword or type attribute
    equals it".  With the empty keyword, the submit input comes first among
    the candidates and its text contains the keyword, yet the element
    clicked is the link after it.  With the keyword submit, the Cancel
    button has no type attribute and its text does not contain the keyword,
    so the first element the words pick is the submit input after it, yet
    the element clicked is the Cancel button, whose type property is
    submit. *)
Lemma click_departs_from_text_or_type_attribute :
  (Dom.querySelectorAll form_page Dom.sel_clickable = form_page /\
   text_contains_or_type_equals "" (input 0 (Some "submit") None "Go") = true /\
   trace (world (snd (click_element driver "" (opened [] (calm form_page))))) =
   [CallClick 1 1]) /\
  (Dom.querySelectorAll cancel_page Dom.sel_clickable = cancel_page /\
   Dom.getAttribute_type (button 0 "Cancel") = None /\
   text_contains_or_type_equals "submit" (button 0 "Cancel") = false /\
   text_contains_or_type_equals "submit" (input 1 (Some "submit") None "Go") = true /\
   trace (world (snd (click_element driver "submit" (opened [] (calm cancel_page))))) =
   [CallClick 1 0]).
Proof. repeat split. Qed.

Lemma click_element_first_match_witness :
  click_element driver "Sign" (opened [] (calm form_page)) =
  (inr (text_result "✅ Clicked Sign"),
   with_world (opened [] (calm form_page))
     (click driver 1 (anchor 1 "Sign in") (calm form_page))).
Proof.
  apply (proj1 (click_element_first_match driver "Sign" (opened [] (calm form_page)) 1
                  (opened [] (calm form_page)) form_page eq_refl eq_refl)
           [input 0 (Some "submit") None "Go"] (anchor 1 "Sign in") [anchor 2 "Sign in again"]
           eq_refl).
  - intros x [<-|[]]; reflexivity.
  - reflexivity.
Defined.

Lemma list_elements_blank_is_null_witness :
  Descriptor.type (describe blank_input) = None /\
  Descriptor.placeholder (describe blank_input) = None /\
  Descriptor.text (describe blank_input) = Some "hello".
Proof.
  destruct (list_elements_blank_is_null [blank_input] (describe blank_input)
              (or_introl eq_refl))
    as [el [[<-|[]] [T [_ [P [_ [_ [V _]]]]]]]].
  split; [apply T; right; reflexivity|].
  split; [apply P; right; reflexivity|].
  apply V; [right; reflexivity | reflexivity | discriminate].
Defined.

(** ** The log and the recorder over the life of the process *)

Section Lifetime.

Context {World : Type} (drv : Driver World).

Ltac run :=
  unfold initBrowser, initBrowser_try, try_catch, bind, gets, ask, await, fresh,
    set_browser, set_page, set_world, add_listener, console_error, modify, deref,
    settle, ret, throw, with_world, browser_dead, page_dead, close_stale in *;
  simpl in *.

Ltac open_state s :=
  destruct s as [? ? ? ? ? ? ?]; run; subst.

Ltac branch H :=
  match type of H with
  | context [match ?x with _ => _ end] =>
      lazymatch x with
      | context [match _ with _ => _ end] => fail
      | _ => destruct x eqn:?; simpl in H
      end
  end.

(** What a call of [initBrowser] leaves alone, whatever it answers. *)
Lemma initBrowser_frame (s : State World) (r : Js.Error + option PageH) (s' : State World) :
  recorder_bound s -> initBrowser drv s = (r, s') ->
  recorder_bound s' /\ networkLogs s' = networkLogs s /\
  incl (listeners s) (listeners s') /\ next_handle s <= next_handle s'.
Proof.
  intros [ND [LB PL]] H; unfold recorder_bound; open_state s.
  repeat branch H; injection H as <- <-; simpl;
    (split; [split; [|split]|split; [reflexivity|split; [|lia]]]);
    try apply incl_refl; try (apply incl_tl, incl_refl); try assumption;
    try (constructor; [intros X; apply LB in X; lia | assumption]);
    try (intros q [<-|X]; [lia | apply LB in X; lia]);
    try (intros q X; apply LB in X; lia);
    try (intros q E; discriminate E);
    try (intros q E; injection E as <-; first [left; reflexivity | apply PL; reflexivity]).
Qed.

Lemma on_response_frame (res : Res.t) (now : string) (s : State World)
      (r : Js.Error + unit) (s' : State World) :
  on_response res now s = (r, s') ->
  listeners s' = listeners s /\ page s' = page s /\ next_handle s' = next_handle s /\
  exists more, networkLogs s' = (networkLogs s ++ more)%list.
Proof.
  rewrite on_response_eq; destruct (Js.startsWith (Res.url res) "http");
    intros H; injection H as _ <-; simpl; repeat split.
  - eexists; reflexivity.
  - exists []; now rewrite app_nil_r.
Qed.

Lemma later_frame (s s' : State World) :
  recorder_bound s -> later drv s s' ->
  recorder_bound s' /\ incl (listeners s) (listeners s') /\
  exists more, networkLogs s' = (networkLogs s ++ more)%list.
Proof.
  intros B L; induction L as [|s1 r s2 L IH E|s1 res now r s2 L IH E|s1 w L IH].
  - split; [exact B|]. split; [apply incl_refl|]. exists []; now rewrite app_nil_r.
  - destruct IH as [B1 [I1 [m1 E1]]].
    destruct (initBrowser_frame s1 r s2 B1 E) as [B2 [E2 [I2 _]]].
    split; [exact B2|]. split; [eapply incl_tran; eassumption|].
    exists m1; now rewrite E2.
  - destruct IH as [B1 [I1 [m1 E1]]].
    destruct (on_response_frame res now s1 r s2 E) as [El [Ep [En [m2 E2]]]].
    split; [unfold recorder_bound; now rewrite El, Ep, En|].
    split; [now rewrite El|].
    exists (m1 ++ m2)%list; now rewrite E2, E1, app_assoc.
  - exact IH.
Qed.

(** X1: The log only grows at its end: in every later state, after any calls
    of [initBrowser], response events and changes of the world, what was
    logged is still there, unchanged and in the same order. *)
Theorem networkLogs_append_only :
  forall (s s' : State World),
    recorder_bound s -> later drv s s' ->
    exists more, networkLogs s' = (networkLogs s ++ more)%list.
Proof. intros s s' B L; now destruct (later_frame s s' B L) as [_ [_ ?]]. Qed.

(** X2: The recorder is bound once to each page [initBrowser] opens: in every
    later state no page carries two listeners, and the held page carries
    one. *)
Theorem recorder_bound_once_per_page :
  forall (s s' : State World),
    recorder_bound s -> later drv s s' ->
    NoDup (listeners s') /\
    (forall p, page s' = Some p -> count_occ Nat.eq_dec (listeners s') p = 1).
Proof.
  intros s s' B L; destruct (later_frame s s' B L) as [[ND [_ PL]] _].
  split; [exact ND|]. intros p Hp.
  pose proof (proj1 (NoDup_count_occ Nat.eq_dec (listeners s')) ND p) as Hle.
  pose proof (proj1 (count_occ_In Nat.eq_dec (listeners s') p) (PL p Hp)) as Hge.
  lia.
Qed.

(** X3: A listener is never removed: a page that carried the recorder still
    carries it in every later state, also after it was replaced, so its
    responses keep being logged. *)
Theorem listeners_never_removed :
  forall (s s' : State World) (p : PageH),
    recorder_bound s -> later drv s s' ->
    In p (listeners s) -> In p (listeners s').
Proof.
  intros s s' p B L Hp; destruct (later_frame s s' B L) as [_ [I _]]; now apply I.
Qed.

End Lifetime.

(** ** Response events and the log queries together *)

Section Events.

Context {World : Type}.

Lemma on_response_run (res : Res.t) (now : string) (s : State World) :
  on_response res now s =
  (inr tt,
   if retained (res, now)
   then mkState (browser s) (page s) (networkLogs s ++ [recorded_entry (res, now)])%list
                (listeners s) (console s) (next_handle s) (world s)
   else s).
Proof.
  rewrite on_response_eq; unfold retained; simpl.
  now destruct (Js.startsWith (Res.url res) "http").
Qed.

Lemma emit_response_absent (ls : list PageH) (p : PageH) (res : Res.t) (now : string)
      (s : State World) :
  ~ In p ls -> emit_response ls p res now s = (inr tt, s).
Proof.
  induction ls as [|l ls IH]; intros Hp; simpl; [reflexivity|].
  destruct (Nat.eqb_spec l p) as [->|Hne]; [elim Hp; now left|].
  unfold bind, ret; apply IH; intros X; apply Hp; now right.
Qed.

Lemma emit_response_once (ls : list PageH) (p : PageH) (res : Res.t) (now : string)
      (s : State World) :
  NoDup ls -> In p ls -> emit_response ls p res now s = on_response res now s.
Proof.
  induction ls as [|l ls IH]; intros ND Hp; [destruct Hp|].
  inversion ND as [|? ? Hl ND']; subst; simpl.
  destruct (Nat.eqb_spec l p) as [->|Hne].
  - unfold bind; rewrite on_response_run; now apply emit_response_absent.
  - destruct Hp as [->|Hp]; [now elim Hne|]. unfold bind, ret; now apply IH.
Qed.

(** X4: A response on the held page runs the recorder exactly once, and a
    response on a page that never carried the recorder is ignored. *)
Theorem response_on_held_page_recorded_once :
  forall (s : State World) (p q : PageH) (res : Res.t) (now : string),
    recorder_bound s -> page s = Some p -> ~ In q (listeners s) ->
    emit_response (listeners s) p res now s = on_response res now s /\
    emit_response (listeners s) q res now s = (inr tt, s).
Proof.
  intros s p q res now [ND [_ PL]] Hp Hq; split.
  - apply emit_response_once; [exact ND | now apply PL].
  - now apply emit_response_absent.
Qed.

(** X5: Responses arriving one after the other on the held page never make the
    recorder throw, and add to the log one entry for each response whose url
    begins with http, in the order of arrival; the others leave no trace. *)
Theorem emit_responses_logs_retained_in_order :
  forall (events : list (Res.t * string)) (s : State World) (p : PageH),
    recorder_bound s -> page s = Some p ->
    emit_responses p events s =
    (inr tt,
     mkState (browser s) (page s)
             (networkLogs s ++ map recorded_entry (filter retained events))%list
             (listeners s) (console s) (next_handle s) (world s)).
Proof.
  induction events as [|[res now] rest IH]; intros s p B Hp; simpl.
  - unfold ret; rewrite app_nil_r; now destruct s.
  - unfold bind at 1, gets; unfold bind at 1.
    destruct B as [ND [LB PL]].
    rewrite (emit_response_once _ p res now s ND (PL p Hp)), on_response_run.
    destruct (retained (res, now)).
    + rewrite (IH _ p); simpl; [|now repeat split|exact Hp].
      now rewrite <- app_assoc.
    + now rewrite (IH s p (conj ND (conj LB PL)) Hp).
Qed.

Lemma check_vs_dump (k : string) (s : State World) :
  check_network_request k s = get_network_logs s <->
  existsb (fun log => Js.includes (url log) k) (networkLogs s) = true.
Proof.
  rewrite check_network_request_eq; unfold get_network_logs, bind, gets, ret.
  destruct (existsb _ _); split; try reflexivity; try discriminate.
  intros H; exfalso; injection H as H.
  unfold Json.stringify, logs_json in H.
  destruct (map entry_json (networkLogs s)); discriminate H.
Qed.

(** X6: [check_network_request] answers exactly what [get_network_logs]
    answers if and only if some logged url contains the keyword; the
    not-found text is never mistaken for a log. *)
Theorem check_network_request_is_dump_iff_match :
  forall (k : string) (s : State World),
    check_network_request k s = get_network_logs s <->
    exists e, In e (networkLogs s) /\ substring_of k (url e).
Proof.
  intros k s; rewrite check_vs_dump, existsb_exists.
  split; intros [e [Hin He]]; exists e; (split; [exact Hin|]); now apply includes_substring.
Qed.

(** X7: The empty keyword is contained in every url: [check_network_request]
    with the empty keyword returns the whole log as soon as one response was
    logged, and the not-found text only while the log is empty. *)
Theorem check_network_request_empty_keyword :
  forall (s : State World),
    (networkLogs s <> [] -> check_network_request EmptyString s = get_network_logs s) /\
    (networkLogs s = [] ->
     check_network_request EmptyString s =
     (inr (text_result "No request found for "), s)).
Proof.
  intros s; split.
  - intros Hne; apply check_vs_dump.
    destruct (networkLogs s) as [|e l]; [now elim Hne|]; simpl.
    assert (H : Js.includes (url e) EmptyString = true)
      by (apply includes_substring; now exists EmptyString, (url e)).
    now rewrite H.
  - intros Hnil; rewrite check_network_request_eq, Hnil; reflexivity.
Qed.

(** X8: Record, then query: once a response whose url begins with http was
    recorded, [check_network_request] with any keyword that occurs in that
    url returns the whole log, and the log ends with the new entry. *)
Theorem recorded_response_is_found :
  forall (res : Res.t) (now k : string) (s : State World),
    Js.startsWith (Res.url res) "http" = true ->
    substring_of k (Res.url res) ->
    exists s',
      on_response res now s = (inr tt, s') /\
      networkLogs s' = (networkLogs s ++ [recorded_entry (res, now)])%list /\
      check_network_request k s' =
      (inr (text_result (Json.stringify (logs_json (networkLogs s')))), s').
Proof.
  intros res now k s Hhttp Hsub; rewrite on_response_run.
  unfold retained; simpl; rewrite Hhttp.
  eexists; split; [reflexivity|]; split; [reflexivity|].
  rewrite check_network_request_eq; simpl.
  rewrite existsb_app; simpl.
  apply includes_substring in Hsub; rewrite Hsub, orb_true_r; reflexivity.
Qed.

End Events.

(** ** More on the session routine *)

Section Acquire.

Context {World : Type} (drv : Driver World).

Ltac run :=
  unfold initBrowser, initBrowser_try, try_catch, bind, gets, ask, await, fresh,
    set_browser, set_page, set_world, add_listener, console_error, modify, deref,
    settle, ret, throw, with_world, browser_dead, page_dead, close_stale in *;
  simpl in *.

Ltac open_state s :=
  destruct s as [? ? ? ? ? ? ?]; run; subst.

Ltac branch H :=
  match type of H with
  | context [match ?x with _ => _ end] =>
      lazymatch x with
      | context [match _ with _ => _ end] => fail
      | _ => destruct x eqn:?; simpl in H
      end
  end.

(** X9: A call of [initBrowser] that succeeds never returns null: it returns
    the page the variable then holds, a browser is held too, that page
    carries the recorder, and the log and the console are as before. *)
Theorem initBrowser_success_holds_session :
  forall (s : State World) (r : option PageH) (s' : State World),
    recorder_bound s ->
    initBrowser drv s = (inr r, s') ->
    exists b p,
      r = Some p /\ page s' = Some p /\ browser s' = Some b /\
      In p (listeners s') /\
      networkLogs s' = networkLogs s /\ console s' = console s.
Proof.
  intros s r s' [_ [_ PL]] H; open_state s.
  repeat branch H; try discriminate; injection H as <- <-; simpl;
    do 2 eexists; repeat split; try (now left); now apply PL.
Qed.

(** X10: Every error [initBrowser] throws is the rejection of one of its driver
    calls (close, launch or newPage); it never fails on a null variable of
    its own. *)
Theorem initBrowser_errors_come_from_driver :
  forall (s : State World) (e : Js.Error) (s' : State World),
    initBrowser drv s = (inl e, s') ->
    (exists b w w', close drv b w = (Some e, w')) \/
    (exists w w', launch drv launch_options w = (Some e, w')) \/
    (exists b w w', newPage drv b w = (Some e, w')).
Proof.
  intros s e s' H; open_state s.
  repeat branch H; try discriminate; injection H as <- <-; subst; eauto 8.
Qed.

(** X11: A browser that reports connected is kept: a successful call leaves the
    same browser handle, and the only driver call it may have made is the
    newPage on that browser. *)
Theorem initBrowser_keeps_connected_browser :
  forall (s : State World) (b : BrowserH) (r : option PageH) (s' : State World),
    browser s = Some b -> isConnected drv b (world s) = true ->
    initBrowser drv s = (inr r, s') ->
    browser s' = Some b /\
    ((page_dead drv (page s) (world s) = false /\ s' = s) \/
     (page_dead drv (page s) (world s) = true /\
      newPage drv b (world s) = (None, world s') /\ r = Some (next_handle s))).
Proof.
  intros s b r s' Hb Hc H; open_state s; rewrite Hc in H; simpl in H.
  repeat branch H; try discriminate; injection H as <- <-; simpl; subst;
    (split; [reflexivity|]);
    first [left; split; reflexivity | right; repeat split; reflexivity].
Qed.

(** X12: When opening a page on a connected browser fails, the browser handle
    is dropped without being closed: the next call launches a second
    browser straight away, on the world the failed newPage left. *)
Theorem initBrowser_drops_browser_after_newPage_error :
  forall (s : State World) (b : BrowserH) (e : Js.Error) (w1 w2 w3 : World),
    browser s = Some b -> isConnected drv b (world s) = true ->
    page_dead drv (page s) (world s) = true ->
    newPage drv b (world s) = (Some e, w1) ->
    launch drv launch_options w1 = (None, w2) ->
    newPage drv (next_handle s) w2 = (None, w3) ->
    exists s1 s2,
      initBrowser drv s = (inl e, s1) /\ browser s1 = None /\ world s1 = w1 /\
      initBrowser drv s1 = (inr (Some (S (next_handle s))), s2) /\
      browser s2 = Some (next_handle s) /\ world s2 = w3.
Proof.
  intros s b e w1 w2 w3 Hb Hc Hd Hn Hl Hn2.
  pose (s1 := mkState None None (networkLogs s) (listeners s) (console s ++ [e])%list
                      (next_handle s) w1).
  exists s1; eexists.
  split; [exact (initBrowser_newPage_fails drv s b e w1 Hb Hc Hd Hn)|].
  split; [reflexivity|]; split; [reflexivity|].
  split; [exact (initBrowser_relaunch_new_page drv s1 w1 w2 w3 eq_refl eq_refl Hl eq_refl Hn2)|].
  split; reflexivity.
Qed.

End Acquire.

(** ** The tools that read the page and type into it *)

Lemma fill_pred_iff (k : string) (f : Page.Field) :
  fill_pred k f = true <->
  (exists t, Page.placeholder f = Some t /\ t <> EmptyString /\ substring_of k t) \/
  (exists t, Page.label0 f = Some t /\ substring_of k t).
Proof.
  unfold fill_pred; rewrite orb_true_iff; split.
  - intros [H|H]; [left|right].
    + destruct (Page.placeholder f) as [t|]; [|discriminate].
      apply andb_true_iff in H; destruct H as [H1 H2].
      exists t; split; [reflexivity|]. split; [now apply truthy_nonempty|].
      now apply includes_substring.
    + destruct (Page.label0 f) as [t|]; [|discriminate].
      exists t; split; [reflexivity | now apply includes_substring].
  - intros [[t [-> [H1 H2]]]|[t [-> H]]]; [left|right].
    + apply andb_true_iff; split; [now apply truthy_nonempty | now apply includes_substring].
    + now apply includes_substring.
Qed.

(** X13: The match of [fill_form] treats its two sources differently: a
    placeholder counts only when it is non-empty and contains the keyword,
    the text of the first label whenever it contains it.  So with the empty
    keyword every field that has a label matches, whatever the label says,
    and a field without a label matches exactly when its placeholder is
    non-empty. *)
Theorem fill_form_match_placeholder_or_label :
  forall (k : string) (f : Page.Field),
    (fill_pred k f = true <->
     (exists t, Page.placeholder f = Some t /\ t <> EmptyString /\ substring_of k t) \/
     (exists t, Page.label0 f = Some t /\ substring_of k t)) /\
    (fill_pred EmptyString f = true <->
     (exists t, Page.placeholder f = Some t /\ t <> EmptyString) \/
     Page.label0 f <> None).
Proof.
  intros k f; split; [apply fill_pred_iff|].
  rewrite fill_pred_iff; split.
  - intros [[t [Hp [Ht _]]]|[t [Hl _]]]; [left; now exists t | right; congruence].
  - intros [[t [Hp Ht]]|Hl].
    + left; exists t; repeat split; try assumption. now exists EmptyString, t.
    + right; destruct (Page.label0 f) as [t|]; [|now elim Hl].
      exists t; split; [reflexivity | now exists EmptyString, t].
Qed.

Section PageTools.

Context {World : Type} (drv : Driver World) (pg : Page.calls World).

Lemma fill_form_run (k v : string) (s : State World) (p : PageH) (s1 : State World)
      (fs : list Page.Field) :
  initBrowser drv s = (inr (Some p), s1) ->
  Page.fields pg p (world s1) = inr fs ->
  fill_form drv pg k v s =
  match fill_target k fs with
  | None => (inr (text_result ("❌ Input not found: " ++ k)), s1)
  | Some f =>
      bind (await (Page.handle_click pg p f (Page.mkClickOptions 3)))
        (fun _ => bind (await (Page.handle_press pg p f "Backspace"))
           (fun _ => bind (await (Page.handle_type pg p f v))
              (fun _ => ret (text_result ("✍️ Typed into " ++ k))))) s1
  end.
Proof.
  intros H Hf; unfold fill_form, bind at 1; rewrite H.
  unfold bind at 1, deref, ret; unfold bind at 1, ask, gets; unfold bind at 1.
  rewrite Hf; simpl; now destruct (fill_target k fs).
Qed.

(** X14: [fill_form] types into the first field, in document order, among the
    inputs and textareas that match the keyword: it clicks it three times,
    presses Backspace, then types the value, in that order and on that field
    only, and answers with the typed text. *)
Theorem fill_form_types_into_first_match :
  forall (k v : string) (s : State World) (p : PageH) (s1 : State World)
         (fs pre post : list Page.Field) (f : Page.Field) (w1 w2 w3 : World),
    initBrowser drv s = (inr (Some p), s1) ->
    Page.fields pg p (world s1) = inr fs ->
    Page.select_fields fs = (pre ++ f :: post)%list ->
    (forall x, In x pre -> fill_pred k x = false) ->
    fill_pred k f = true ->
    Page.handle_click pg p f (Page.mkClickOptions 3) (world s1) = (None, w1) ->
    Page.handle_press pg p f "Backspace" w1 = (None, w2) ->
    Page.handle_type pg p f v w2 = (None, w3) ->
    fill_form drv pg k v s =
    (inr (text_result ("✍️ Typed into " ++ k)), with_world s1 w3).
Proof.
  intros k v s p s1 fs pre post f w1 w2 w3 H Hf Hsel Hpre Hm Hc Hp Ht.
  rewrite (fill_form_run k v s p s1 fs H Hf); unfold fill_target.
  rewrite Hsel, (find_first _ pre post f Hpre Hm).
  unfold bind, await, ret; simpl; rewrite Hc; simpl; rewrite Hp; simpl; now rewrite Ht.
Qed.

(** X15: When no input or textarea matches the keyword, [fill_form] answers
    with the not-found text and makes no input action at all: the state is
    the one [initBrowser] left. *)
Theorem fill_form_not_found_types_nothing :
  forall (k v : string) (s : State World) (p : PageH) (s1 : State World)
         (fs : list Page.Field),
    initBrowser drv s = (inr (Some p), s1) ->
    Page.fields pg p (world s1) = inr fs ->
    (forall x, In x (Page.select_fields fs) -> fill_pred k x = false) ->
    fill_form drv pg k v s = (inr (text_result ("❌ Input not found: " ++ k)), s1).
Proof.
  intros k v s p s1 fs H Hf Hnone.
  rewrite (fill_form_run k v s p s1 fs H Hf); unfold fill_target.
  now rewrite (proj2 (find_none_iff _ _) Hnone).
Qed.

(** X16: An input action of [fill_form] that rejects is thrown to the caller,
    the actions after it are not made, and the browser and page variables
    stay as [initBrowser] left them: a rejected click is followed by no key
    press, a rejected Backspace by no typing. *)
Theorem fill_form_input_error_is_thrown :
  forall (k v : string) (s : State World) (p : PageH) (s1 : State World)
         (fs : list Page.Field) (f : Page.Field),
    initBrowser drv s = (inr (Some p), s1) ->
    Page.fields pg p (world s1) = inr fs ->
    fill_target k fs = Some f ->
    (forall e w1,
        Page.handle_click pg p f (Page.mkClickOptions 3) (world s1) = (Some e, w1) ->
        fill_form drv pg k v s = (inl e, with_world s1 w1)) /\
    (forall e w1 w2,
        Page.handle_click pg p f (Page.mkClickOptions 3) (world s1) = (None, w1) ->
        Page.handle_press pg p f "Backspace" w1 = (Some e, w2) ->
        fill_form drv pg k v s = (inl e, with_world s1 w2)) /\
    (forall e w1 w2 w3,
        Page.handle_click pg p f (Page.mkClickOptions 3) (world s1) = (None, w1) ->
        Page.handle_press pg p f "Backspace" w1 = (None, w2) ->
        Page.handle_type pg p f v w2 = (Some e, w3) ->
        fill_form drv pg k v s = (inl e, with_world s1 w3)).
Proof.
  intros k v s p s1 fs f H Hf Ht.
  rewrite (fill_form_run k v s p s1 fs H Hf), Ht.
  unfold bind, await, ret; simpl; repeat split.
  - intros e w1 Hc; now rewrite Hc.
  - intros e w1 w2 Hc Hp; rewrite Hc; simpl; now rewrite Hp.
  - intros e w1 w2 w3 Hc Hp Hy; rewrite Hc; simpl; rewrite Hp; simpl; now rewrite Hy.
Qed.

(** X17: [assert_text] answers Found exactly when the text occurs in the markup
    of the page, with the same case, and Not Found (after a leading space)
    otherwise; the empty text is found in every page.  It changes nothing
    after the acquire. *)
Theorem assert_text_found_iff_contained :
  forall (text : string) (s : State World) (p : PageH) (s1 : State World) (markup : string),
    initBrowser drv s = (inr (Some p), s1) ->
    Page.content pg p (world s1) = inr markup ->
    (substring_of text markup ->
     assert_text drv pg text s = (inr (text_result ("Found: " ++ text)), s1)) /\
    (~ substring_of text markup ->
     assert_text drv pg text s = (inr (text_result (" Not Found: " ++ text)), s1)) /\
    assert_text drv pg EmptyString s = (inr (text_result "Found: "), s1).
Proof.
  intros text s p s1 markup H Hc.
  assert (Run : forall t, assert_text drv pg t s =
                          (inr (text_result (if Js.includes markup t then "Found: " ++ t
                                             else " Not Found: " ++ t)), s1)).
  { intros t; unfold assert_text, bind at 1; rewrite H.
    unfold bind, deref, ask, gets, settle, ret; simpl; now rewrite Hc. }
  split; [|split].
  - intros Hs; apply includes_substring in Hs; now rewrite Run, Hs.
  - intros Hs; rewrite Run; destruct (Js.includes markup text) eqn:E; [|reflexivity].
    elim Hs; now apply includes_substring.
  - rewrite Run.
    assert (E : Js.includes markup EmptyString = true)
      by (apply includes_substring; now exists EmptyString, markup).
    now rewrite E.
Qed.

(** X18: When the page cannot give its markup, [assert_text] throws that error
    instead of answering Not Found. *)
Theorem assert_text_content_error_is_thrown :
  forall (text : string) (s : State World) (p : PageH) (s1 : State World) (e : Js.Error),
    initBrowser drv s = (inr (Some p), s1) ->
    Page.content pg p (world s1) = inl e ->
    assert_text drv pg text s = (inl e, s1).
Proof.
  intros text s p s1 e H Hc; unfold assert_text, bind at 1; rewrite H.
  unfold bind, deref, ask, gets, settle, ret, throw; simpl; now rewrite Hc.
Qed.

End PageTools.

(** ** The element listing *)

Lemma interactive_tag (el : Dom.Element) :
  Dom.matches Dom.sel_interactive el = true ->
  Dom.toLowerCase (Dom.tagName el) = "a" \/ Dom.toLowerCase (Dom.tagName el) = "button" \/
  Dom.toLowerCase (Dom.tagName el) = "input" \/ Dom.toLowerCase (Dom.tagName el) = "textarea".
Proof.
  unfold Dom.matches, Dom.sel_interactive; simpl.
  rewrite orb_false_r, !orb_true_iff, !String.eqb_eq; tauto.
Qed.

(** X19: The descriptors of [list_elements] carry only the four tags a, button,
    input and textarea, in lower case, and they follow document order: the
    listing of two stretches of a document is the listing of the first
    followed by the listing of the second. *)
Theorem list_elements_tags_in_document_order :
  forall (doc1 doc2 : Dom.Document),
    (forall d, In d (list_elements_script (doc1 ++ doc2)%list) ->
               Descriptor.tag d = "a" \/ Descriptor.tag d = "button" \/
               Descriptor.tag d = "input" \/ Descriptor.tag d = "textarea") /\
    list_elements_script (doc1 ++ doc2)%list =
    (list_elements_script doc1 ++ list_elements_script doc2)%list.
Proof.
  intros doc1 doc2; split.
  - intros d Hd; unfold list_elements_script in Hd.
    apply in_map_iff in Hd; destruct Hd as [el [<- Hel]].
    apply filter_In in Hel; destruct Hel as [_ Hm].
    exact (interactive_tag el Hm).
  - unfold list_elements_script, Dom.querySelectorAll.
    now rewrite filter_app, map_app.
Qed.

Lemma filter_nothing {A} (f : A -> bool) (l : list A) :
  (forall x, In x l -> f x = false) -> filter f l = [].
Proof.
  induction l as [|x l IH]; intros H; [reflexivity|]; cbn [filter].
  rewrite (H x (or_introl eq_refl)); apply IH; intros y Hy; apply H; now right.
Qed.

Section Listing.

Context {World : Type} (drv : Driver World).

(** X20: On a page without any anchor, button, input or textarea,
    [list_elements] answers with the empty array, not with an error or a
    not-found text. *)
Theorem list_elements_nothing_interactive :
  forall (s : State World) (p : PageH) (s1 : State World) (doc : Dom.Document),
    initBrowser drv s = (inr (Some p), s1) ->
    document drv p (world s1) = inr doc ->
    (forall el, In el doc -> Dom.matches Dom.sel_interactive el = false) ->
    list_elements drv s = (inr (text_result "[]"), s1).
Proof.
  intros s p s1 doc H Hdoc Hnone.
  rewrite (list_elements_serializes_descriptors drv s p s1 doc H Hdoc).
  assert (E : list_elements_script doc = []).
  { unfold list_elements_script, Dom.querySelectorAll.
    now rewrite (filter_nothing _ doc Hnone). }
  now rewrite E.
Qed.

End Listing.

(** ** The first version: a session that is opened once and never again *)

Section FirstVersion.

Context {World : Type} (drv : Driver World) (pg : Page.calls World).

Lemma v010_initBrowser_held (s : State World) (b : BrowserH) :
  browser s = Some b -> V010.initBrowser drv s = (inr (page s), s).
Proof.
  intros Hb; unfold V010.initBrowser, bind, gets, ret; simpl; now rewrite Hb.
Qed.

(** X21: In version 0.1.0 the first call of [initBrowser] launches a browser
    and opens a page; after that no call ever touches the driver again: the
    same page is returned in every world, also when the browser has
    disconnected or the page was closed. *)
Theorem v010_initBrowser_opens_once_never_recovers :
  forall (s : State World) (w1 w2 : World),
    browser s = None ->
    launch drv V010.launch_options (world s) = (None, w1) ->
    newPage drv (next_handle s) w1 = (None, w2) ->
    exists s1,
      V010.initBrowser drv s = (inr (Some (S (next_handle s))), s1) /\
      browser s1 = Some (next_handle s) /\ world s1 = w2 /\
      forall w, V010.initBrowser drv (with_world s1 w) =
                (inr (Some (S (next_handle s))), with_world s1 w).
Proof.
  intros s w1 w2 Hb Hl Hn.
  pose (s1 := mkState (Some (next_handle s)) (Some (S (next_handle s))) (networkLogs s)
                      (listeners s) (console s) (S (S (next_handle s))) w2).
  exists s1.
  split; [|split; [reflexivity|split; [reflexivity|]]].
  - unfold V010.initBrowser, bind, gets, await, fresh, set_browser, set_page, modify,
      with_world, ret; simpl.
    rewrite Hb, Hl; simpl; now rewrite Hn.
  - intros w; exact (v010_initBrowser_held (with_world s1 w) (next_handle s) eq_refl).
Qed.

(** X22: In version 0.1.0, when the browser launches but its page cannot be
    opened, the error is thrown and the browser handle stays held with no
    page.  From then on [initBrowser] returns undefined in every world
    without calling the driver, and [visit_page] fails on it each time. *)
Theorem v010_stuck_after_newPage_error :
  forall (s : State World) (e : Js.Error) (w1 w2 : World),
    browser s = None -> page s = None ->
    launch drv V010.launch_options (world s) = (None, w1) ->
    newPage drv (next_handle s) w1 = (Some e, w2) ->
    exists s1,
      V010.initBrowser drv s = (inl e, s1) /\
      browser s1 = Some (next_handle s) /\ page s1 = None /\
      forall w url,
        V010.initBrowser drv (with_world s1 w) = (inr None, with_world s1 w) /\
        V010.visit_page drv pg url (with_world s1 w) =
        (inl (V010.TypeError "goto"), with_world s1 w).
Proof.
  intros s e w1 w2 Hb Hp Hl Hn.
  pose (s1 := mkState (Some (next_handle s)) None (networkLogs s) (listeners s) (console s)
                      (S (next_handle s)) w2).
  exists s1.
  split; [|split; [reflexivity|split; [reflexivity|intros w url; split]]].
  - unfold V010.initBrowser, bind, gets, await, fresh, set_browser, set_page, modify,
      with_world, ret; simpl.
    rewrite Hb, Hl; simpl; rewrite Hn; simpl; now rewrite Hp.
  - exact (v010_initBrowser_held (with_world s1 w) (next_handle s) eq_refl).
  - unfold V010.visit_page, bind at 1.
    now rewrite (v010_initBrowser_held (with_world s1 w) (next_handle s) eq_refl).
Qed.

(** X23: In version 0.1.0 [visit_page] has no error handling of its own: a
    navigation that rejects is thrown to the caller, where version 0.4.0
    answers with a failure text. *)
Theorem v010_visit_page_throws_navigation_error :
  forall (url : string) (s : State World) (b : BrowserH) (p : PageH),
    browser s = Some b -> page s = Some p ->
    (forall w, Page.goto_plain pg p url (world s) = (None, w) ->
               V010.visit_page drv pg url s =
               (inr (text_result ("✅ Visited " ++ url)), with_world s w)) /\
    (forall e w, Page.goto_plain pg p url (world s) = (Some e, w) ->
                 V010.visit_page drv pg url s = (inl e, with_world s w)).
Proof.
  intros url s b p Hb Hp; split; intros; unfold V010.visit_page, bind at 1;
    rewrite (v010_initBrowser_held s b Hb), Hp;
    unfold bind, V010.deref, await, ret; simpl; now rewrite H.
Qed.

End FirstVersion.

(** ** Further runs on the scripted drivers *)

Lemma opened_recorder_bound (logs : list LogEntry) (w : Scripted.World) :
  recorder_bound (opened logs w).
Proof.
  split; [repeat constructor; intros []|].
  split; [intros p [<-|[]]; simpl; lia | intros p E; injection E as <-; now left].
Qed.

Lemma start_recorder_bound {World : Type} (w : World) :
  recorder_bound (mkState None None [] [] [] 0 w).
Proof. split; [constructor|]. split; [intros p []|intros p E; discriminate E]. Qed.

Lemma networkLogs_append_only_witness :
  exists more,
    networkLogs (snd (on_response html_response "t" (opened two_entries (calm [])))) =
    (two_entries ++ more)%list.
Proof.
  exact (networkLogs_append_only driver (opened two_entries (calm [])) _
           (opened_recorder_bound two_entries (calm []))
           (later_response driver (opened two_entries (calm [])) (opened two_entries (calm []))
              html_response "t" (inr tt)
              (snd (on_response html_response "t" (opened two_entries (calm []))))
              (later_now driver _) eq_refl)).
Defined.

Lemma recorder_bound_once_per_page_witness :
  count_occ Nat.eq_dec (listeners (snd (initBrowser driver (opened [] session_gone)))) 3 = 1.
Proof.
  exact (proj2 (recorder_bound_once_per_page driver (opened [] session_gone) _
                  (opened_recorder_bound [] session_gone)
                  (later_acquire driver (opened [] session_gone) (opened [] session_gone)
                     (inr (Some 3)) (snd (initBrowser driver (opened [] session_gone)))
                     (later_now driver _) eq_refl))
           3 eq_refl).
Defined.

Lemma listeners_never_removed_witness :
  In 1 (listeners (snd (initBrowser driver (opened [] session_gone)))).
Proof.
  exact (listeners_never_removed driver (opened [] session_gone) _ 1
           (opened_recorder_bound [] session_gone)
           (later_acquire driver (opened [] session_gone) (opened [] session_gone)
                     (inr (Some 3)) (snd (initBrowser driver (opened [] session_gone)))
                     (later_now driver _) eq_refl)
           (or_introl eq_refl)).
Defined.

Lemma response_on_held_page_recorded_once_witness :
  emit_response [1] 1 html_response "t" (opened [] (calm [])) =
    on_response html_response "t" (opened [] (calm [])) /\
  emit_response [1] 7 html_response "t" (opened [] (calm [])) =
    (inr tt, opened [] (calm [])).
Proof.
  apply (response_on_held_page_recorded_once (opened [] (calm [])) 1 7 html_response "t"
           (opened_recorder_bound [] (calm [])) eq_refl).
  intros [H|[]]; discriminate H.
Defined.

Lemma emit_responses_logs_retained_in_order_witness :
  networkLogs
    (snd (emit_responses 1
            [(Desk.api_response, "t1"); (Desk.data_response, "t2"); (html_response, "t3")]
            (opened [] (calm [])))) =
  [mkLogEntry "http://api.test/users" 201 (Json.JArray [Json.JNumber 1]) "t1";
   mkLogEntry "https://site.test/" 200 (Json.JString "<html>") "t3"].
Proof.
  now rewrite (emit_responses_logs_retained_in_order _ (opened [] (calm [])) 1
                 (opened_recorder_bound [] (calm [])) eq_refl).
Defined.

Lemma check_network_request_is_dump_iff_match_witness :
  check_network_request "cdn" (opened two_entries (calm [])) =
  get_network_logs (opened two_entries (calm [])).
Proof.
  apply (proj2 (check_network_request_is_dump_iff_match "cdn" (opened two_entries (calm [])))).
  exists (entry "https://cdn.test/app.js"); split; [right; left; reflexivity|].
  exists "https://", ".test/app.js"; reflexivity.
Defined.

Lemma check_network_request_empty_keyword_witness :
  check_network_request EmptyString (opened two_entries (calm [])) =
    get_network_logs (opened two_entries (calm [])) /\
  check_network_request EmptyString (start (calm [])) =
    (inr (text_result "No request found for "), start (calm [])).
Proof.
  split.
  - apply (proj1 (check_network_request_empty_keyword (opened two_entries (calm [])))).
    discriminate.
  - exact (proj2 (check_network_request_empty_keyword (start (calm []))) eq_refl).
Defined.

Lemma recorded_response_is_found_witness :
  exists s',
    on_response html_response "t" (start (calm [])) = (inr tt, s') /\
    networkLogs s' = [recorded_entry (html_response, "t")] /\
    check_network_request "site" s' =
    (inr (text_result (Json.stringify (logs_json (networkLogs s')))), s').
Proof.
  apply (recorded_response_is_found html_response "t" "site" (start (calm [])) eq_refl).
  exists "https://", ".test/"; reflexivity.
Defined.

Lemma initBrowser_success_holds_session_witness :
  exists b p,
    Some 1 = Some p /\ page (snd (initBrowser driver (start (calm [])))) = Some p /\
    browser (snd (initBrowser driver (start (calm [])))) = Some b /\
    In p (listeners (snd (initBrowser driver (start (calm []))))) /\
    networkLogs (snd (initBrowser driver (start (calm [])))) = [] /\
    console (snd (initBrowser driver (start (calm [])))) = [].
Proof.
  exact (initBrowser_success_holds_session driver (start (calm [])) (Some 1) _
           (start_recorder_bound (calm [])) eq_refl).
Defined.

Lemma initBrowser_errors_come_from_driver_witness :
  (exists b w w', close driver b w = (Some boom, w')) \/
  (exists w w', launch driver launch_options w = (Some boom, w')) \/
  (exists b w w', newPage driver b w = (Some boom, w')).
Proof.
  exact (initBrowser_errors_come_from_driver driver (start launch_rejects) boom _ eq_refl).
Defined.

Lemma initBrowser_keeps_connected_browser_witness :
  browser (snd (initBrowser driver (opened [] (calm [])))) = Some 0.
Proof.
  exact (proj1 (initBrowser_keeps_connected_browser driver (opened [] (calm [])) 0 (Some 1) _
                  eq_refl eq_refl eq_refl)).
Defined.

Lemma initBrowser_drops_browser_after_newPage_error_witness :
  exists s1 s2,
    initBrowser Flaky.driver Flaky.pageless = (inl boom, s1) /\
    browser s1 = None /\ world s1 = 1 /\
    initBrowser Flaky.driver s1 = (inr (Some 2), s2) /\
    browser s2 = Some 1 /\ world s2 = 3.
Proof.
  exact (initBrowser_drops_browser_after_newPage_error Flaky.driver Flaky.pageless 0 boom
           1 2 3 eq_refl eq_refl eq_refl eq_refl eq_refl eq_refl).
Defined.

Lemma fill_form_match_placeholder_or_label_witness :
  fill_pred EmptyString (Desk.field 2 EmptyString (Some "Password")) = true.
Proof.
  apply (proj2 (fill_form_match_placeholder_or_label
                  "x" (Desk.field 2 EmptyString (Some "Password")))).
  right; discriminate.
Defined.

Lemma fill_form_types_into_first_match_witness :
  fst (fill_form Desk.driver Desk.calls "Email" "a@b.c"
         (Desk.opened (Desk.quiet (calm []) EmptyString Desk.signup))) =
    inr (text_result "✍️ Typed into Email") /\
  Desk.keys (world (snd (fill_form Desk.driver Desk.calls "Email" "a@b.c"
                           (Desk.opened (Desk.quiet (calm []) EmptyString Desk.signup))))) =
    [Desk.KeyClick 0 3; Desk.KeyPress 0 "Backspace"; Desk.KeyType 0 "a@b.c"].
Proof.
  rewrite (fill_form_types_into_first_match Desk.driver Desk.calls "Email" "a@b.c"
             (Desk.opened (Desk.quiet (calm []) EmptyString Desk.signup)) 1
             (Desk.opened (Desk.quiet (calm []) EmptyString Desk.signup))
             Desk.signup [] [Desk.field 1 "Email2" None; Desk.field 2 EmptyString (Some "Password")]
             (Desk.field 0 "Email" None) _ _ _
             eq_refl eq_refl eq_refl (fun x (H : In x []) => match H with end)
             eq_refl eq_refl eq_refl eq_refl).
  split; reflexivity.
Defined.

Lemma fill_form_not_found_types_nothing_witness :
  fill_form Desk.driver Desk.calls "Phone" "1"
    (Desk.opened (Desk.quiet (calm []) EmptyString Desk.signup)) =
  (inr (text_result "❌ Input not found: Phone"),
   Desk.opened (Desk.quiet (calm []) EmptyString Desk.signup)).
Proof.
  apply (fill_form_not_found_types_nothing Desk.driver Desk.calls "Phone" "1"
           (Desk.opened (Desk.quiet (calm []) EmptyString Desk.signup)) 1
           (Desk.opened (Desk.quiet (calm []) EmptyString Desk.signup)) Desk.signup
           eq_refl eq_refl).
  intros x [<-|[<-|[<-|[]]]]; reflexivity.
Defined.

Lemma fill_form_input_error_is_thrown_witness :
  fst (fill_form Desk.driver Desk.calls "Email" "a@b.c"
         (Desk.opened (Desk.click_rejects Desk.signup))) = inl boom /\
  Desk.keys (world (snd (fill_form Desk.driver Desk.calls "Email" "a@b.c"
                           (Desk.opened (Desk.click_rejects Desk.signup))))) =
    [Desk.KeyClick 0 3].
Proof.
  rewrite (proj1 (fill_form_input_error_is_thrown Desk.driver Desk.calls "Email" "a@b.c"
                    (Desk.opened (Desk.click_rejects Desk.signup)) 1
                    (Desk.opened (Desk.click_rejects Desk.signup)) Desk.signup
                    (Desk.field 0 "Email" None) eq_refl eq_refl eq_refl)
             boom _ eq_refl).
  split; reflexivity.
Defined.

Lemma assert_text_found_iff_contained_witness :
  assert_text Desk.driver Desk.calls "Hello"
    (Desk.opened (Desk.quiet (calm []) "<h1>Hello World</h1>" [])) =
    (inr (text_result "Found: Hello"),
     Desk.opened (Desk.quiet (calm []) "<h1>Hello World</h1>" [])) /\
  assert_text Desk.driver Desk.calls "hello"
    (Desk.opened (Desk.quiet (calm []) "<h1>Hello World</h1>" [])) =
    (inr (text_result " Not Found: hello"),
     Desk.opened (Desk.quiet (calm []) "<h1>Hello World</h1>" [])).
Proof.
  destruct (assert_text_found_iff_contained Desk.driver Desk.calls "Hello"
              (Desk.opened (Desk.quiet (calm []) "<h1>Hello World</h1>" [])) 1
              (Desk.opened (Desk.quiet (calm []) "<h1>Hello World</h1>" []))
              "<h1>Hello World</h1>" eq_refl eq_refl) as [Hyes _].
  destruct (assert_text_found_iff_contained Desk.driver Desk.calls "hello"
              (Desk.opened (Desk.quiet (calm []) "<h1>Hello World</h1>" [])) 1
              (Desk.opened (Desk.quiet (calm []) "<h1>Hello World</h1>" []))
              "<h1>Hello World</h1>" eq_refl eq_refl) as [_ [Hno _]].
  split.
  - apply Hyes; exists "<h1>", " World</h1>"; reflexivity.
  - apply Hno; intros Hs; apply includes_substring in Hs; vm_compute in Hs; discriminate Hs.
Defined.

Lemma assert_text_content_error_is_thrown_witness :
  assert_text Desk.driver Desk.calls "Hello" (Desk.opened Desk.no_markup) =
  (inl boom, Desk.opened Desk.no_markup).
Proof.
  exact (assert_text_content_error_is_thrown Desk.driver Desk.calls "Hello"
           (Desk.opened Desk.no_markup) 1 (Desk.opened Desk.no_markup) boom eq_refl eq_refl).
Defined.

Lemma list_elements_tags_in_document_order_witness :
  Descriptor.tag (describe (anchor 1 "Sign in")) = "a" \/
  Descriptor.tag (describe (anchor 1 "Sign in")) = "button" \/
  Descriptor.tag (describe (anchor 1 "Sign in")) = "input" \/
  Descriptor.tag (describe (anchor 1 "Sign in")) = "textarea".
Proof.
  apply (proj1 (list_elements_tags_in_document_order
                  [input 0 (Some "submit") None "Go"] [anchor 1 "Sign in"])).
  right; left; reflexivity.
Defined.

Lemma list_elements_nothing_interactive_witness :
  list_elements driver
    (opened [] (calm [Dom.mkElement 0 "DIV" None None (Some "hi") None None])) =
  (inr (text_result "[]"),
   opened [] (calm [Dom.mkElement 0 "DIV" None None (Some "hi") None None])).
Proof.
  apply (list_elements_nothing_interactive driver
           (opened [] (calm [Dom.mkElement 0 "DIV" None None (Some "hi") None None])) 1
           (opened [] (calm [Dom.mkElement 0 "DIV" None None (Some "hi") None None]))
           [Dom.mkElement 0 "DIV" None None (Some "hi") None None] eq_refl eq_refl).
  intros el [<-|[]]; reflexivity.
Defined.

Lemma v010_initBrowser_opens_once_never_recovers_witness :
  exists s1,
    V010.initBrowser Desk.driver (Desk.start (Desk.quiet (calm []) EmptyString [])) =
      (inr (Some 1), s1) /\
    browser s1 = Some 0 /\
    world s1 = Desk.with_base (Desk.quiet (calm []) EmptyString [])
                 (record (CallNewPage 0) (record (CallLaunch V010.launch_options) (calm []))) /\
    forall w, V010.initBrowser Desk.driver (with_world s1 w) =
              (inr (Some 1), with_world s1 w).
Proof.
  exact (v010_initBrowser_opens_once_never_recovers Desk.driver
           (Desk.start (Desk.quiet (calm []) EmptyString [])) _ _ eq_refl eq_refl eq_refl).
Defined.

Lemma v010_stuck_after_newPage_error_witness :
  exists s1,
    V010.initBrowser Desk.driver (Desk.start Desk.no_page) = (inl boom, s1) /\
    browser s1 = Some 0 /\ page s1 = None /\
    forall w url,
      V010.initBrowser Desk.driver (with_world s1 w) = (inr None, with_world s1 w) /\
      V010.visit_page Desk.driver Desk.calls url (with_world s1 w) =
      (inl (V010.TypeError "goto"), with_world s1 w).
Proof.
  exact (v010_stuck_after_newPage_error Desk.driver Desk.calls (Desk.start Desk.no_page)
           boom _ _ eq_refl eq_refl eq_refl eq_refl).
Defined.

Lemma v010_visit_page_throws_navigation_error_witness :
  fst (V010.visit_page Desk.driver Desk.calls "http://nowhere.test"
         (Desk.opened (Desk.quiet goto_rejects EmptyString []))) =
  inl (Js.mkError "net::ERR_NAME_NOT_RESOLVED").
Proof.
  now rewrite (proj2 (v010_visit_page_throws_navigation_error Desk.driver Desk.calls
                        "http://nowhere.test"
                        (Desk.opened (Desk.quiet goto_rejects EmptyString [])) 0 1
                        eq_refl eq_refl)
                 (Js.mkError "net::ERR_NAME_NOT_RESOLVED") _ eq_refl).
Defined.
